(** * view-cache2 / template: render-resolution pipeline

    A shallow embedding of [index.js] and [lib/utils.js]: the JavaScript
    values the code manipulates, the [Template] instance as an explicit
    state record, and the methods [create], [getEngine], [applyLayout],
    [mergeFn], [preprocess], [render] and [renderSync] as state-passing
    functions in an exception monad.  Packages the module merely requires
    ([layouts], [engine-cache], [helper-cache], [parser-cache], [delims],
    [load-templates], [uniqueid]) are gathered in one record of
    collaborators. *)

From Stdlib Require Import String Ascii List ZArith Bool Lia DecimalString.
Import ListNotations.
Local Open Scope string_scope.
Set Warnings "-register-all".

(* ================================================================== *)
(** ** JavaScript values *)

(** Plain data as it flows through the pipeline.  Numbers are integers,
    arrays are not needed by the functions embedded here.  [VFun] is a
    function handle (helpers end up in the render context), [VErr] an
    [Error] object with its [name] and [message]. *)
Inductive value : Type :=
| VUndef
| VNull
| VBool (b : bool)
| VNum (n : Z)
| VStr (s : string)
| VObj (fields : list (string * value))
| VFun (name : string)
| VErr (name msg : string).

Definition fields := list (string * value).

Definition TypeError (msg : string) : value := VErr "TypeError" msg.
Definition Error (msg : string) : value := VErr "Error" msg.

(** [{}.toString.call(val)] lower-cased and stripped, [utils.typeOf]. *)
Definition typeOf (v : value) : string :=
  match v with
  | VUndef => "undefined"
  | VNull => "null"
  | VBool _ => "boolean"
  | VNum _ => "number"
  | VStr _ => "string"
  | VObj _ => "object"
  | VFun _ => "function"
  | VErr _ _ => "error"
  end.

Definition isString (v : value) : bool := typeOf v =? "string".
Definition isObject (v : value) : bool := typeOf v =? "object".

(** JavaScript truthiness, as tested by [if (x)], [x || y] and [!x]. *)
Definition truthy (v : value) : bool :=
  match v with
  | VUndef | VNull => false
  | VBool b => b
  | VNum n => negb (n =? 0)%Z
  | VStr s => negb (s =? "")
  | VObj _ | VFun _ | VErr _ _ => true
  end.

(** [a || b] *)
Definition or_else (a b : value) : value := if truthy a then a else b.

(** String coercion of a value, as done by ['.' + ext] and by a property
    key [o[ext]].  The source text of a function is not modelled: a
    handle prints as its name. *)
Definition to_string (v : value) : string :=
  match v with
  | VUndef => "undefined"
  | VNull => "null"
  | VBool true => "true"
  | VBool false => "false"
  | VNum n => NilZero.string_of_int (Z.to_int n)
  | VStr s => s
  | VObj _ => "[object Object]"
  | VFun name => name
  | VErr name msg => if msg =? "" then name else name ++ ": " ++ msg
  end.

(* ------------------------------------------------------------------ *)
(** *** Objects as ordered field lists *)

Fixpoint get_field (fs : fields) (k : string) : value :=
  match fs with
  | [] => VUndef
  | (k', v) :: rest => if k' =? k then v else get_field rest k
  end.

Fixpoint has_field (fs : fields) (k : string) : bool :=
  match fs with
  | [] => false
  | (k', _) :: rest => (k' =? k) || has_field rest k
  end.

(** [o[k] = v]: an existing key keeps its position, a new key goes last. *)
Fixpoint set_field (fs : fields) (k : string) (v : value) : fields :=
  match fs with
  | [] => [(k, v)]
  | (k', v') :: rest =>
      if k' =? k then (k, v) :: rest else (k', v') :: set_field rest k v
  end.

(** [v[k]] where the read cannot throw: primitives have no such property.
    (A primitive string owns only its indices and [length], which no
    caller here looks up.) *)
Definition get (v : value) (k : string) : value :=
  match v with
  | VObj fs => get_field fs k
  | _ => VUndef
  end.

(** lodash [_.has(object, key)]: an own property of [object]. *)
Definition hasOwn (v : value) (k : string) : bool :=
  match v with
  | VObj fs => has_field fs k
  | _ => false
  end.

(** One source of [_.extend]: every own key of the source is copied; a
    source that is not an object contributes nothing. *)
Definition assign (target : fields) (src : value) : fields :=
  match src with
  | VObj fs =>
      fold_left (fun acc kv => set_field acc (fst kv) (get_field fs (fst kv)))
                fs target
  | _ => target
  end.

(** [_.extend(target, s1, ..., sn)] on an object target: later sources win. *)
Definition extend (target : fields) (srcs : list value) : fields :=
  fold_left assign srcs target.

(** One source of [_.defaults]: a key is copied only where the target
    still resolves to [undefined]. *)
Definition default1 (target : fields) (src : value) : fields :=
  match src with
  | VObj fs =>
      fold_left (fun acc kv =>
                   match get_field acc (fst kv) with
                   | VUndef => set_field acc (fst kv) (get_field fs (fst kv))
                   | _ => acc
                   end)
                fs target
  | _ => target
  end.

(** [_.defaults(target, s1, ..., sn)]: earlier sources win. *)
Definition defaults (target : fields) (srcs : list value) : fields :=
  fold_left default1 srcs target.

(** [_.extend(target, ...)] where the target is whatever the caller holds:
    lodash hands a target that is not an object back untouched. *)
Definition extend_value (target : value) (srcs : list value) : value :=
  match target with
  | VObj fs => VObj (extend fs srcs)
  | _ => target
  end.

(* ------------------------------------------------------------------ *)
(** *** Results of calls that may throw *)

(** [Throw e] ends the modelled call with the exception [e]; the
    instance such a call leaves behind is not tracked, the record
    [applyLayout] leaves behind is. *)

Inductive result (A : Type) : Type :=
| Ok (a : A)
| Throw (e : value).
Arguments Ok {A} a.
Arguments Throw {A} e.

Definition bind {A B} (r : result A) (k : A -> result B) : result B :=
  match r with
  | Ok a => k a
  | Throw e => Throw e
  end.

Declare Scope js_scope.
Delimit Scope js_scope with js.
Notation "x <- c ;; k" := (bind c (fun x => k))
  (at level 61, c at next level, right associativity) : js_scope.
Notation "' p <- c ;; k" := (bind c (fun x => let p := x in k))
  (at level 61, p pattern, c at next level, right associativity) : js_scope.
Local Open Scope js_scope.

(** [v.k] where [v] may be [undefined] or [null]: that read throws. *)
Definition prop (v : value) (k : string) : result value :=
  match v with
  | VUndef | VNull =>
      Throw (TypeError ("Cannot read property '" ++ k ++ "' of " ++ to_string v))
  | _ => Ok (get v k)
  end.

(** [v[k] = x] in strict mode.  [value] tracks no properties of a
    function or of an error object: such an assignment leaves [v] as it
    is. *)
Definition set_prop (v : value) (k : string) (x : value) : result value :=
  match v with
  | VObj fs => Ok (VObj (set_field fs k x))
  | VFun _ | VErr _ _ => Ok v
  | VUndef | VNull =>
      Throw (TypeError ("Cannot set property '" ++ k ++ "' of undefined"))
  | _ =>
      Throw (TypeError ("Cannot create property '" ++ k ++ "' on a primitive"))
  end.

(* ================================================================== *)
(** ** The [Template] instance *)

(** What an engine's asynchronous [render(content, locals, cb)] does with
    its callback: throw before calling it, call it with [(err, res)], or
    never call it. *)
Inductive engine_reply : Type :=
| Throws (e : value)
| Replies (err res : value)
| Silent.

(** An engine capability as stored by the engine registry.  A missing
    method is [None]: [hasOwn(engine, 'renderSync')] is [false] for it. *)
Record engine : Type := mkEngine {
  e_options : value;
  e_render : option (value -> value -> engine_reply);
  e_renderSync : option (value -> value -> result value);
  e_helpers : value
}.

(** The helpers [create] can register under a type's singular name, and
    helpers of the user's own. *)
Inductive helper : Type :=
| IncludeSync (plural : string)
| IncludeAsync (type plural : string)
| UserHelper (name : string).

(** The accessors [create] installs on [Template.prototype]. *)
Inductive method : Type :=
| Adder (plural : string)
| BulkAdder (plural : string) (options : value)
| Getter (plural : string).

(** [this]: the fields of a [Template] instance that the embedded methods
    read or write.  Engine objects live in [engine_heap]; the registry
    [engines] maps a key to the reference of the object stored under it,
    so that a write through one lookup is seen by every later one.
    [init] never assigns [viewType] (it assigns [templateType]);
    [viewType_renderable] is [None] unless set from outside. *)
Record instance : Type := mkInstance {
  options : fields;
  cache : fields;
  templateType_partial : list string;
  templateType_renderable : list string;
  templateType_layout : list string;
  viewType_renderable : option (list string);
  layoutSettings : fields;
  delims : fields;
  currentDelims : value;
  helpers : list (string * helper);
  engines : list (string * nat);
  engine_heap : list (nat * engine);
  methods : list (string * method);
  ids : nat
}.

(** [this.option(key)] and [this.get(key)] of config-cache. *)
Definition option_ (this : instance) (k : string) : value :=
  get_field (options this) k.
Definition cache_get (this : instance) (k : string) : value :=
  get_field (cache this) k.

Definition set_cache (this : instance) (c : fields) : instance :=
  mkInstance (options this) c (templateType_partial this)
    (templateType_renderable this) (templateType_layout this)
    (viewType_renderable this) (layoutSettings this) (delims this)
    (currentDelims this) (helpers this) (engines this) (engine_heap this)
    (methods this) (ids this).

Definition set_layoutSettings (this : instance) (l : fields) : instance :=
  mkInstance (options this) (cache this) (templateType_partial this)
    (templateType_renderable this) (templateType_layout this)
    (viewType_renderable this) l (delims this)
    (currentDelims this) (helpers this) (engines this) (engine_heap this)
    (methods this) (ids this).

Definition set_delims (this : instance) (d : fields) : instance :=
  mkInstance (options this) (cache this) (templateType_partial this)
    (templateType_renderable this) (templateType_layout this)
    (viewType_renderable this) (layoutSettings this) d
    (currentDelims this) (helpers this) (engines this) (engine_heap this)
    (methods this) (ids this).

Definition set_engine_heap (this : instance) (h : list (nat * engine))
  : instance :=
  mkInstance (options this) (cache this) (templateType_partial this)
    (templateType_renderable this) (templateType_layout this)
    (viewType_renderable this) (layoutSettings this) (delims this)
    (currentDelims this) (helpers this) (engines this) h
    (methods this) (ids this).

Definition set_ids (this : instance) (n : nat) : instance :=
  mkInstance (options this) (cache this) (templateType_partial this)
    (templateType_renderable this) (templateType_layout this)
    (viewType_renderable this) (layoutSettings this) (delims this)
    (currentDelims this) (helpers this) (engines this) (engine_heap this)
    (methods this) n.

Definition set_helpers (this : instance) (h : list (string * helper))
  : instance :=
  mkInstance (options this) (cache this) (templateType_partial this)
    (templateType_renderable this) (templateType_layout this)
    (viewType_renderable this) (layoutSettings this) (delims this)
    (currentDelims this) h (engines this) (engine_heap this)
    (methods this) (ids this).

Definition set_methods (this : instance) (m : list (string * method))
  : instance :=
  mkInstance (options this) (cache this) (templateType_partial this)
    (templateType_renderable this) (templateType_layout this)
    (viewType_renderable this) (layoutSettings this) (delims this)
    (currentDelims this) (helpers this) (engines this) (engine_heap this)
    m (ids this).

Definition set_templateType (this : instance) (p r l : list string)
  : instance :=
  mkInstance (options this) (cache this) p r l
    (viewType_renderable this) (layoutSettings this) (delims this)
    (currentDelims this) (helpers this) (engines this) (engine_heap this)
    (methods this) (ids this).

(** Association lists keyed by strings and by references. *)
Fixpoint lookup {A} (l : list (string * A)) (k : string) : option A :=
  match l with
  | [] => None
  | (k', a) :: rest => if k' =? k then Some a else lookup rest k
  end.

Fixpoint store {A} (l : list (string * A)) (k : string) (a : A)
  : list (string * A) :=
  match l with
  | [] => [(k, a)]
  | (k', a') :: rest =>
      if k' =? k then (k, a) :: rest else (k', a') :: store rest k a
  end.

Fixpoint deref {A} (h : list (nat * A)) (r : nat) : option A :=
  match h with
  | [] => None
  | (r', a) :: rest => if Nat.eqb r' r then Some a else deref rest r
  end.

Fixpoint update {A} (h : list (nat * A)) (r : nat) (a : A) : list (nat * A) :=
  match h with
  | [] => [(r, a)]
  | (r', a') :: rest =>
      if Nat.eqb r' r then (r, a) :: rest else (r', a') :: update rest r a
  end.

(* ================================================================== *)
(** ** lib/utils.js *)

Module utils.

(** [ext[0]]: the first character of a string, the property ["0"] of an
    object, [undefined] otherwise. *)
Definition char0 (v : value) : value :=
  match v with
  | VStr (String c _) => VStr (String c "")
  | VObj fs => get_field fs "0"
  | _ => VUndef
  end.

Definition is_dot (v : value) : bool :=
  match v with
  | VStr s => s =? "."
  | _ => false
  end.

(** [utils.formatExt]: [if (ext && ext[0] !== '.') ext = '.' + ext]. *)
Definition formatExt (ext : value) : value :=
  if truthy ext && negb (is_dot (char0 ext))
  then VStr ("." ++ to_string ext)
  else ext.

(** [utils.pickFrom], the definition in force (the second assignment to
    [utils.pickFrom] replaces the first).  [val] is the loop's running
    value: the last container found, handed back when no container owns
    [key]. *)
Fixpoint pickFrom_loop (o : fields) (key : string) (arr : list string)
  (val : value) : value :=
  match arr with
  | [] => val
  | prop :: rest =>
      if has_field o prop then
        let val' := get_field o prop in
        if hasOwn val' key then get val' key
        else pickFrom_loop o key rest val'
      else pickFrom_loop o key rest val
  end.

Definition pickFrom (o : value) (key : string) (arr : list string) : value :=
  match o with
  | VObj fs =>
      if has_field fs key then get_field fs key
      else pickFrom_loop fs key arr VNull
  | _ => VNull
  end.

(** [utils.pickLayout] *)
Definition pickLayout (v : value) : value :=
  pickFrom v "layout" ["data"; "locals"; "options"].

(** [utils.pickContent]: a string is handed back as it is, anything else
    is reduced to its [content] property (object-pick). *)
Definition pickContent (file : value) : value :=
  match file with
  | VStr _ => file
  | VObj fs =>
      if has_field fs "content" then VObj [("content", get_field fs "content")]
      else VObj []
  | _ => VObj []
  end.

(** [utils.pickExt] *)
Definition pickExt (template options : value) (thisArg : option instance)
  : result value :=
  let options := extend [] [options] in
  let viewEngine :=
    match thisArg with
    | None => Throw (TypeError "Cannot read property 'option' of undefined")
    | Some this =>
        let ext := option_ this "viewEngine" in
        Ok (if truthy ext then formatExt ext else ext)
    end in
  if isObject template then
    let template := extend [] [template] in
    let toptions := extend [] [get_field template "options"] in
    if truthy (get_field template "engine") then Ok (get_field template "ext")
    else if truthy (get_field template "ext") then Ok (get_field template "ext")
    else if truthy (get_field toptions "engine")
         then Ok (get_field toptions "engine")
    else if truthy (get_field toptions "ext") then Ok (get_field toptions "ext")
    else if truthy (get_field options "engine")
         then Ok (get_field options "engine")
    else if truthy (get_field options "ext") then Ok (get_field options "ext")
    else viewEngine
  else viewEngine.

(** The loop of [utils.pickCached] over the renderable types. *)
Fixpoint pickCached_loop (this : instance) (types : list string)
  (name : string) : result value :=
  match types with
  | [] => Ok VNull
  | t :: rest =>
      match cache_get this t with
      | VObj c =>
          if has_field c name then Ok (get_field c name)
          else pickCached_loop this rest name
      | VUndef | VNull =>
          Throw (TypeError "Cannot read property 'hasOwnProperty' of undefined")
      | _ => pickCached_loop this rest name
      end
  end.

(** [utils.pickCached (file, locals, thisArg)]: for a string [file] it
    reads [thisArg.viewType.renderable]. *)
Definition pickCached {L : Type} (file : value) (locals : L)
  (thisArg : option instance) : result value :=
  match file with
  | VStr name =>
      match thisArg with
      | None => Throw (TypeError "Cannot read property 'viewType' of undefined")
      | Some this =>
          match viewType_renderable this with
          | None =>
              Throw (TypeError "Cannot read property 'renderable' of undefined")
          | Some types => pickCached_loop this types name
          end
      end
  | _ => Ok VNull
  end.

End utils.

(* ================================================================== *)
(** ** Collaborators *)

(** What [index.js] obtains from the packages it requires.  Every
    method below is parametric in them.

    - [Layouts_render L content layout opts]: the [content] of
      [layoutEngine.render(content, layout, opts)], for the [Layouts]
      instance constructed from the settings [L];
    - [Engines_get registry ext]: the reference of the engine object that
      [this._.engines.get(ext)] hands out, if any;
    - [Helpers_resolve res]: the [(err, content)] with which
      [this._.helpers.resolve(res, cb)] calls [cb];
    - [Delims_templates arr settings]: [this._.delims.templates];
    - [Loader_load opts args]: the map that [loader.load] of a
      load-templates [Loader] constructed with [opts] makes of [args];
    - [Parsers_parse this ext record]: what [this.parse] returns for
      [record] and the synchronous parser stack of [ext], whose
      functions are parser-cache's and the user's;
    - [Layouts_setLayout L map]: the [Layouts] instance [L] after
      [setLayout(map)];
    - [uniqueId n]: the [n]-th identifier of uniqueid;
    - [Function_apply f this args]: a call of the user's function [f]. *)
Record collaborators : Type := mkCollaborators {
  Layouts_render : value -> value -> value -> value -> result value;
  Engines_get : list (string * nat) -> value -> option nat;
  Helpers_resolve : value -> value * value;
  Delims_templates : value -> value -> value;
  Loader_load : value -> list value -> result value;
  Parsers_parse : instance -> value -> value -> result value;
  Layouts_setLayout : value -> value -> value;
  uniqueId : nat -> string;
  Function_apply : string -> instance -> list value -> result value
}.

(** [index.js] calls [utils.isPartial], [utils.isLayout],
    [utils.pickPartial] and [utils.pickDelims]; [lib/utils.js] assigns
    none of them.  A call of a property that is [undefined] throws, and
    the statements after it are not reached. *)
Definition not_a_function {A : Type} (name : string) : result A :=
  Throw (TypeError (name ++ " is not a function")).

Definition utils_isPartial (template : value) : result bool :=
  not_a_function "utils.isPartial".

Definition utils_isLayout (template : value) : result bool :=
  not_a_function "utils.isLayout".

Definition utils_pickPartial (template : value) (thisArg : instance)
  : result value :=
  not_a_function "utils.pickPartial".

Definition utils_pickDelims (template locals : value) : result value :=
  not_a_function "utils.pickDelims".

(* ================================================================== *)
(** ** index.js *)

Section Methods.

Context (env : collaborators).

(** [Template.prototype.lazyLayouts] *)
Definition lazyLayouts (this : instance) (ext : value) (opts0 : value)
  : instance :=
  let key := to_string ext in
  if has_field (layoutSettings this) key then this
  else
    let opts := extend [] [VObj (options this); opts0] in
    set_layoutSettings this
      (set_field (layoutSettings this) key
         (VObj [("delims", get_field opts "layoutDelims");
                ("layouts", get_field opts "layouts");
                ("locals", get_field opts "locals");
                ("tag", get_field opts "layoutTag")])).

(** [Template.prototype.applyLayout].  The first component is the
    record as the call leaves it, whether it returns or throws: the call
    writes [template.options.hasLayout] before it goes on, and nothing
    else; the write is made on the object the record holds as its
    [options].  The second component is the string returned or the
    exception thrown. *)
Definition applyLayout (this : instance) (ext : value)
  (template locals : value) : value * result value :=
  let layoutEngine := get_field (layoutSettings this) (to_string ext) in
  let obj := utils.pickContent template in
  if truthy layoutEngine then
    match prop template "options" with
    | Throw e => (template, Throw e)
    | Ok topts =>
        match prop topts "hasLayout" with
        | Throw e => (template, Throw e)
        | Ok hasLayout =>
            if negb (truthy hasLayout) then
              match set_prop topts "hasLayout" (VBool true) with
              | Throw e => (template, Throw e)
              | Ok topts =>
                  let template :=
                    match template with
                    | VObj tfs => VObj (set_field tfs "options" topts)
                    | _ => template
                    end in
                  (template,
                   isPartial <- utils_isPartial template ;;
                   let opts :=
                     if (isPartial : bool)
                     then VObj [("defaultLayout", VBool false)]
                     else VObj [] in
                   let layout := utils.pickLayout template in
                   Layouts_render env layoutEngine (get obj "content")
                     layout opts)
              end
            else (template, Ok (get obj "content"))
        end
    end
  else (template, Ok (get obj "content")).

(** [Template.prototype.getEngine]: the engine object is fetched from the
    registry and written to before it is returned. *)
Definition getEngine (this : instance) (ext : value)
  : result (engine * instance) :=
  match Engines_get env (engines this) ext with
  | None => Throw (TypeError "Cannot read property 'options' of undefined")
  | Some r =>
      match deref (engine_heap this) r with
      | None => Throw (TypeError "Cannot read property 'options' of undefined")
      | Some e =>
          match e_options e with
          | VObj ofs =>
              let e' := mkEngine (VObj (set_field ofs "thisArg" VNull))
                          (e_render e) (e_renderSync e) (e_helpers e) in
              Ok (e', set_engine_heap this (update (engine_heap this) r e'))
          | _ => Throw (TypeError "Cannot set property 'thisArg'")
          end
      end
  end.

(** [Template.prototype.extendLocals] *)
Definition extendLocals (key : string) (template locals : value)
  : result value :=
  let t := extend [("_locals", VObj [])] [template] in
  match get_field t "_locals" with
  | VObj ls =>
      Ok (VObj (set_field t "_locals"
                  (VObj (set_field ls key
                           (VObj (extend [] [get_field ls key; locals]))))))
  | VUndef | VNull =>
      Throw (TypeError ("Cannot read property '" ++ key ++ "' of undefined"))
  | VFun _ | VErr _ _ => Ok (VObj t)
  | _ => Throw (TypeError ("Cannot create property '" ++ key ++ "' on a primitive"))
  end.

(** [this._.helpers] as the object [mergeFn] copies from. *)
Definition helpers_object (this : instance) : value :=
  VObj (map (fun nh => (fst nh, VFun (fst nh))) (helpers this)).

Definition is_true (v : value) : bool :=
  match v with
  | VBool true => true
  | _ => false
  end.

(** [Template.prototype.mergeFn].  [extend(data, o, locals)] writes into
    the object held at [this.cache.data]: the instance is returned with
    that object as the call leaves it. *)
Definition mergeFn (this : instance) (template locals : value)
  : result (value * instance) :=
  let data := cache_get this "data" in
  let custom := option_ this "mergeFn" in
  if truthy custom then
    match custom with
    | VFun f =>
        r <- Function_apply env f this [template; locals] ;; Ok (r, this)
    | _ => Throw (TypeError "this.option(...).apply is not a function")
    end
  else
    let o :=
      if isObject template then
        if is_true (option_ this "preferLocals")
        then defaults [] [VObj []; get template "locals"; get template "data"]
        else defaults [] [VObj []; get template "data"; get template "locals"]
      else [] in
    let o :=
      set_field o "helpers"
        (VObj (extend [] [helpers_object this; get_field o "helpers"])) in
    let merged := extend_value data [VObj o; locals] in
    Ok (merged,
        match data with
        | VObj _ => set_cache this (set_field (cache this) "data" merged)
        | _ => this
        end).


(** [Template.prototype.makeDelims] *)
Definition makeDelims (arr opts0 : value) : value :=
  let settings := VObj (extend [] [opts0; VObj [("escape", VBool true)]]) in
  extend_value (Delims_templates env arr settings) [opts0].

(** [Template.prototype.addDelims (ext, arr, layoutDelims)] for a third
    argument that is not an array: it is then taken as the settings. *)
Definition addDelims (this : instance) (ext arr layoutDelims : value)
  : instance :=
  let settings := layoutDelims in
  let d := extend [] [makeDelims arr settings; settings] in
  set_delims this (set_field (delims this) (to_string ext) (VObj d)).

(** [Template.prototype.getDelims], by the key its argument coerces to. *)
Definition getDelims (this : instance) (ext : string) : value :=
  if has_field (delims this) ext then get_field (delims this) ext
  else get_field (delims this)
         (to_string (or_else (currentDelims this) (VStr "default"))).

(** [renameKey.call(this, key)] for [renameKey = this.option(name)]. *)
Definition call_option (this : instance) (name : string) (args : list value)
  : result value :=
  match option_ this name with
  | VFun f => Function_apply env f this args
  | VUndef | VNull =>
      Throw (TypeError "Cannot read property 'call' of undefined")
  | _ => Throw (TypeError (name ++ ".call is not a function"))
  end.

(** The body of the [forOwn] of [normalize] for the entry at [key] of
    the loaded map [template].  The entry is the object held in the map,
    so that the write of its [options] shows in the map. *)
Definition normalize_entry (opts0 : value) (key : string)
  (acc : fields * instance) : result (fields * instance) :=
  let '(template, this) := acc in
  let v := get_field template key in
  voptions <- prop v "options" ;;
  let voptions := VObj (extend [] [opts0; voptions]) in
  v <- set_prop v "options" voptions ;;
  let template := set_field template key v in
  key' <- call_option this "renameKey" [VStr key] ;;
  ext <- utils.pickExt v voptions (Some this) ;;
  let this := lazyLayouts this ext voptions in
  isLayout <- utils_isLayout v ;;
  let _ := utils.pickLayout v in
  parsed <- Parsers_parse env this ext v ;;
  let v := if truthy parsed then parsed else v in
  let template := set_field template (to_string key') v in
  Ok (template,
      if (isLayout : bool) then
        set_layoutSettings this
          (set_field (layoutSettings this) (to_string ext)
             (Layouts_setLayout env
                (get_field (layoutSettings this) (to_string ext))
                (VObj template)))
      else this).

Fixpoint normalize_loop (opts0 : value) (keys : list string)
  (acc : fields * instance) : result (fields * instance) :=
  match keys with
  | [] => Ok acc
  | key :: keys =>
      acc <- normalize_entry opts0 key acc ;;
      normalize_loop opts0 keys acc
  end.

(** [Template.prototype.normalize].  [forOwn] visits the keys the map
    has when the loop starts, in the order of the field list; the
    characters of a string count as its entries. *)
Definition normalize (this : instance) (template opts0 : value)
  : result (value * instance) :=
  let custom := option_ this "normalize" in
  if truthy custom then
    match custom with
    | VFun f =>
        r <- Function_apply env f this [template; opts0] ;; Ok (r, this)
    | _ => Throw (TypeError "this.options.normalize.apply is not a function")
    end
  else
    match template with
    | VObj fs =>
        '(fs, this) <- normalize_loop opts0 (map fst fs) (fs, this) ;;
        Ok (VObj fs, this)
    | VStr s =>
        if (s =? "")%string then Ok (template, this)
        else
          Throw (TypeError "Cannot create property 'options' on a primitive")
    | _ => Ok (template, this)
    end.

(** The function returned by [Template.prototype.load (plural, options)],
    applied to its [arguments]. *)
Definition load (this : instance) (plural : string) (opts0 : value)
  (args : list value) : result instance :=
  let opts := VObj (extend [] [VObj (options this); opts0]) in
  loaded <- Loader_load env opts args ;;
  '(template, this) <- normalize this loaded opts0 ;;
  Ok (match cache_get this plural with
      | VObj c =>
          set_cache this
            (set_field (cache this) plural (VObj (extend c [template])))
      | _ => this
      end).

(** [Template.prototype.format] *)
Definition format (this : instance) (key template locals : value)
  : result (value * instance) :=
  this <- load this "anonymous"
            (VObj [("isRenderable", VBool true)]) [key; template; locals] ;;
  t <- prop (cache_get this "anonymous") (to_string key) ;;
  t <- extendLocals "render" t locals ;;
  Ok (t, this).

(** One iteration of the inner [forOwn] of [mergePartials]: the cached
    record [this.cache[type][key]] gets its layout applied and its
    [content] overwritten, and its data and locals are folded into
    [opts]. *)
Definition mergePartials_entry (ext combine : value) (type key : string)
  (acc : fields * instance) : result (fields * instance) :=
  let '(opts, this) := acc in
  let collection := cache_get this type in
  let v := get collection key in
  vlocals <- prop v "locals" ;;
  let '(v, out) := applyLayout this ext v vlocals in
  content <- out ;;
  match v, collection with
  | VObj vfs, VObj c =>
      let v := VObj (set_field vfs "content" content) in
      let this :=
        set_cache this (set_field (cache this) type (VObj (set_field c key v))) in
      let opts := extend [] [VObj opts; get v "data"; get v "locals"] in
      let slot := if truthy combine then "partials" else type in
      match get_field opts slot with
      | VObj ps =>
          Ok (set_field opts slot (VObj (set_field ps key content)), this)
      | _ => Throw (TypeError ("Cannot set property '" ++ key ++ "' of undefined"))
      end
  | _, _ => Throw (TypeError "Cannot create property 'content' on a primitive")
  end.

Fixpoint mergePartials_keys (ext combine : value) (type : string)
  (keys : list string) (acc : fields * instance) : result (fields * instance) :=
  match keys with
  | [] => Ok acc
  | k :: rest =>
      acc <- mergePartials_entry ext combine type k acc ;;
      mergePartials_keys ext combine type rest acc
  end.

Fixpoint mergePartials_types (ext combine : value) (types : list string)
  (acc : fields * instance) : result (fields * instance) :=
  match types with
  | [] => Ok acc
  | t :: rest =>
      let keys :=
        match cache_get (snd acc) t with
        | VObj c => map fst c
        | _ => []
        end in
      acc <- mergePartials_keys ext combine t keys acc ;;
      mergePartials_types ext combine rest acc
  end.

(** [Template.prototype.mergePartials (ext, locals, combine)] *)
Definition mergePartials (this : instance) (ext locals combine : value)
  : result (fields * instance) :=
  let combine := or_else combine (option_ this "mergePartials") in
  let opts := extend [("partials", VObj [])] [locals] in
  mergePartials_types ext combine (templateType_partial this) (opts, this).

(** [if (typeof locals === 'function') { cb = locals; locals = {}; }] *)
Definition callsite_locals (locals : value) : value :=
  match locals with
  | VFun _ => VObj []
  | _ => locals
  end.

(** What [preprocess] returns. *)
Record preprocessed : Type := mkPre {
  pre_content : value;
  pre_engine : engine;
  pre_locals : value
}.

(** [Template.prototype.preprocess].  [utils.pickCached(template, this)]
    passes the instance in the position of [locals]; [thisArg] is left
    out of the call.  Likewise [this.mergePartials(locals)] passes the
    context in the position of [ext].  Where [pickCached] finds nothing
    the next call is [utils.pickPartial], and without [locals.delims]
    the delimiters are asked of [utils.pickDelims].

    The record handed to [applyLayout] is the copy made by
    [extendLocals]; in the source that copy shares its [options] object
    with the record it was copied from, so the mark [applyLayout] sets is
    seen there too.  The sharing is not represented here: the marked copy
    is dropped, and no statement below re-renders a cached record. *)
Definition preprocess (this : instance) (template locals : value)
  : result (preprocessed * instance) :=
  let locals := callsite_locals locals in
  let locals := or_else locals (VObj []) in
  let engine := get locals "engine" in
  let delims := get locals "delims" in
  tmpl <- (if truthy (option_ this "cache") then
             t <- utils.pickCached template this None ;;
             if negb (truthy t) then utils_pickPartial template this
             else Ok t
           else Ok VUndef) ;;
  '(template, this) <-
     (if truthy tmpl then
        t <- extendLocals "render" tmpl locals ;; Ok (t, this)
      else
        let key := VStr (uniqueId env (ids this)) in
        format (set_ids this (S (ids this))) key template locals) ;;
  '(locals, delims, this) <-
     (if isObject template then
        '(l, this) <- mergeFn this template locals ;;
        delims <- (if truthy delims then Ok delims
                   else utils_pickDelims template l) ;;
        Ok (l, delims, this)
      else Ok (locals, delims, this)) ;;
  ext <- utils.pickExt template locals (Some this) ;;
  content <- snd (applyLayout this ext template locals) ;;
  let this := if truthy delims then addDelims this ext delims VUndef else this in
  '(engine, delims, this) <-
     (if isString engine then
        let name :=
          if utils.is_dot (utils.char0 engine) then engine
          else VStr ("." ++ to_string engine) in
        '(e, this) <- getEngine this name ;;
        Ok (e, getDelims this "[object Object]", this)
      else
        '(e, this) <- getEngine this ext ;;
        Ok (e, getDelims this (to_string ext), this)) ;;
  '(partials, this) <- mergePartials this locals VUndef VUndef ;;
  let locals := VObj (extend [] [locals; VObj partials; delims]) in
  let content := if isObject content then get content "content" else content in
  Ok (mkPre content engine locals, this).

(** How a call of the asynchronous [render] ends: with an exception
    thrown at the caller, with the caller's callback invoked as
    [cb(err, res)], or with the callback never invoked. *)
Inductive outcome : Type :=
| Thrown (e : value)
| Callback (err res : value)
| Pending.

(** The lines shared by [render] and [renderSync]: the default engine is
    fetched, then [preprocess] replaces content, locals and engine when
    the [preprocess] option is on. *)
Definition prepare (this : instance) (content locals : value)
  : result (preprocessed * instance) :=
  let ext := option_ this "viewEngine" in
  '(engine, this) <- getEngine this ext ;;
  if truthy (option_ this "preprocess") then preprocess this content locals
  else Ok (mkPre content engine locals, this).

(** [Template.prototype.render (content, locals, cb)].  Only the call of
    [engine.render] sits inside the [try]. *)
Definition render (this : instance) (content locals : value) : outcome :=
  let locals := callsite_locals locals in
  match prepare this content locals with
  | Throw e => Thrown e
  | Ok (pre, this) =>
      match e_render (pre_engine pre) with
      | None => Callback (TypeError "engine.render is not a function") VUndef
      | Some f =>
          match f (pre_content pre) (pre_locals pre) with
          | Throws e => Callback e VUndef
          | Replies _ res =>
              let '(err, content) := Helpers_resolve env res in
              Callback err content
          | Silent => Pending
          end
      end
  end.

Definition dq : string := String (ascii_of_nat 34) EmptyString.

(** [Template.prototype.renderSync (content, locals)]: [Ok v] is a value
    returned to the caller, [Throw e] an exception thrown at it. *)
Definition renderSync (this : instance) (content locals : value)
  : result (value * instance) :=
  '(pre, this) <- prepare this content locals ;;
  match e_renderSync (pre_engine pre) with
  | None =>
      Throw (Error ("`.renderSync()` method not found on engine: " ++ dq
                    ++ "[object Object]" ++ dq ++ "."))
  | Some f =>
      match f (pre_content pre) (pre_locals pre) with
      | Ok v => Ok (v, this)
      | Throw err => Ok (err, this)
      end
  end.

(** [Template.prototype.trackType] *)
Definition trackType (this : instance) (plural : string) (opts0 : value)
  : instance :=
  let opts := extend [] [opts0] in
  let isRenderable := truthy (get_field opts "isRenderable") in
  let isLayout := truthy (get_field opts "isLayout") in
  let isPartial := truthy (get_field opts "isPartial") in
  let r := (templateType_renderable this
            ++ (if isRenderable then [plural] else []))%list in
  let l := (templateType_layout this
            ++ (if isLayout then [plural] else []))%list in
  let p := (templateType_partial this
            ++ (if isPartial || (negb isRenderable && negb isLayout)
                then [plural] else []))%list in
  set_templateType this p r l.

(** [Template.prototype.defaultHelpers]: the helper registered under the
    singular name is the synchronous one. *)
Definition defaultHelpers (this : instance) (type plural : string)
  : instance :=
  set_helpers this (store (helpers this) type (IncludeSync plural)).

(** [Template.prototype.defaultAsyncHelpers] *)
Definition defaultAsyncHelpers (this : instance) (type plural : string)
  : instance :=
  set_helpers this (store (helpers this) type (IncludeAsync type plural)).

(** [toUpperCase] on one character of an ASCII name. *)
Definition upper (c : ascii) : ascii :=
  let n := nat_of_ascii c in
  if (97 <=? n)%nat && (n <=? 122)%nat then ascii_of_nat (n - 32) else c.

(** [Template.prototype.create (type, plural, options)].  The call of
    [defaultAsyncHelpers] is commented out in the source; the helper that
    gets registered is the one of [defaultHelpers]. *)
Definition create (this : instance) (type : string) (plural options : value)
  : result instance :=
  match plural with
  | VStr pl =>
      let this :=
        set_cache this
          (set_field (cache this) pl (or_else (cache_get this pl) (VObj []))) in
      let this := trackType this pl options in
      let this :=
        set_methods this
          (store (store (methods this) type (Adder pl))
                 pl (BulkAdder pl options)) in
      match type with
      | EmptyString =>
          Throw (TypeError "Cannot read property 'toUpperCase' of undefined")
      | String c rest =>
          let name := String (upper c) rest in
          let this :=
            set_methods this (store (methods this) ("get" ++ name) (Getter pl)) in
          Ok (match lookup (helpers this) type with
              | Some _ => this
              | None => defaultHelpers this type pl
              end)
      end
  | _ =>
      Throw (Error ("A plural form must be defined for: " ++ dq ++ type
                    ++ dq ++ "."))
  end.

(** The body of the helper registered by [defaultHelpers]:
    [function (key, locals)]. *)
Definition include_sync (this : instance) (plural : string)
  (key locals : value) : result (value * instance) :=
  partial <- prop (cache_get this plural) (to_string key) ;;
  partial <- extendLocals "partial" partial locals ;;
  renderSync this partial VUndef.

(** The body of the helper of [defaultAsyncHelpers]:
    [function (name, locals, next)].  The result pairs the lines written
    to the console with the way [next] is reached. *)
Definition include_async (this : instance) (type plural : string)
  (name locals : value) : list string * outcome :=
  let locals := callsite_locals locals in
  match prop (cache_get this plural) (to_string name) with
  | Throw e => ([], Thrown e)
  | Ok partial =>
      if negb (truthy partial) then
        (["helper {{" ++ type ++ " " ++ dq ++ to_string name ++ dq
          ++ "}} not found."],
         Callback VNull (VStr ""))
      else
        match partial with
        | VObj pfs =>
            let partial :=
              VObj (set_field pfs "locals"
                      (VObj (extend [] [get_field pfs "locals"; locals]))) in
            ([], match render this partial (VObj []) with
                 | Callback err content =>
                     if truthy err then Callback err VUndef
                     else Callback VNull content
                 | o => o
                 end)
        | _ => ([], Thrown (TypeError "Cannot create property 'locals' on a primitive"))
        end
  end.

(** Invoking the helper registered under [name], if there is one and it
    is one of the two inclusion helpers above run synchronously. *)
Definition call_helper (this : instance) (name : string) (key locals : value)
  : option (result (value * instance)) :=
  match lookup (helpers this) name with
  | Some (IncludeSync plural) => Some (include_sync this plural key locals)
  | _ => None
  end.

End Methods.

(** The record as [applyLayout] leaves it once it has marked it. *)
Definition marked (tfs ofs : fields) : value :=
  VObj (set_field tfs "options"
          (VObj (set_field ofs "hasLayout" (VBool true)))).

(* ================================================================== *)
(** ** The precedence orders as the documentation words them *)

(** The layout name by the documented precedence: the record's own
    [layout], else [data.layout], else [locals.layout], else the
    process-wide default layout. *)
Definition documented_layout (record defaultLayout : value) : value :=
  if hasOwn record "layout" then get record "layout"
  else if hasOwn (get record "data") "layout"
       then get (get record "data") "layout"
  else if hasOwn (get record "locals") "layout"
       then get (get record "locals") "layout"
  else defaultLayout.

(** Whether [create] is documented to reject a plural name: anything but
    a non-empty string. *)
Definition nonempty_string (v : value) : bool :=
  match v with
  | VStr s => negb (s =? "")
  | _ => false
  end.

(* ================================================================== *)
(** ** A concrete setting *)

(** Stand-ins for the collaborators, used where a statement is evaluated
    on concrete data.  [wrap_once] plays the [layouts] package for chains
    of length one: the named layout's [{% body %}] tag is replaced by the
    content; an unknown name leaves the content as it is. *)
Fixpoint replace_first (needle repl hay : string) : string :=
  match hay with
  | EmptyString => EmptyString
  | String c rest =>
      if String.prefix needle hay
      then repl ++ substring (String.length needle)
                     (String.length hay - String.length needle) hay
      else String c (replace_first needle repl rest)
  end.

Definition wrap_once (L content layout opts : value) : result value :=
  match get (get L "layouts") (to_string layout), content with
  | VObj lfs, VStr c =>
      match get_field lfs "content" with
      | VStr lc => Ok (VStr (replace_first "{% body %}" c lc))
      | _ => Ok content
      end
  | _, _ => Ok content
  end.

(** A registry lookup by the exact key, falling back on [".*"]. *)
Definition exact_get (registry : list (string * nat)) (ext : value)
  : option nat :=
  match lookup registry (to_string ext) with
  | Some r => Some r
  | None => lookup registry ".*"
  end.

(** A loader that makes a map of one record out of [key], [content]
    and [locals], with nothing parsed. *)
Definition plain_loader (opts : value) (args : list value) : result value :=
  match args with
  | [key; content; locals] =>
      Ok (VObj [(to_string key,
                 VObj [("path", key); ("content", content);
                       ("locals", locals)])])
  | _ => Ok (VObj [])
  end.

Definition standins : collaborators :=
  mkCollaborators
    wrap_once
    exact_get
    (fun res => (VNull, res))
    (fun _ _ => VObj [])
    plain_loader
    (fun _ _ record => Ok record)
    (fun L _ => L)
    (fun n => "__id__" ++ NilZero.string_of_uint (Nat.to_uint n))
    (fun f _ _ => Throw (TypeError (f ++ " is not a function"))).

(** The scalar options of [defaultOptions] ([cwd], [defaultExts] and
    [layoutDelims] are left out), with one layout declared. *)
Definition default_options : fields :=
  [("cache", VBool true); ("strictErrors", VBool true);
   ("pretty", VBool false); ("ext", VStr "*"); ("destExt", VStr ".html");
   ("delims", VObj []); ("viewEngine", VStr ".*"); ("engineDelims", VNull);
   ("layoutTag", VStr "body"); ("layout", VNull);
   ("preprocess", VBool true); ("preferLocals", VBool false);
   ("partialLayout", VNull); ("mergePartials", VBool true);
   ("mergeFunction", VFun "extend"); ("bindHelpers", VBool true);
   ("defaultParsers", VBool true); ("defaultEngines", VBool true);
   ("defaultHelpers", VBool true); ("renameKey", VFun "renameKey");
   ("layouts",
    VObj [("default.md", VObj [("content", VStr "bbb{% body %}bbb")]);
          ("base.md", VObj [("content", VStr "<base>{% body %}</base>")])])].

(** The pass-through engine, and an engine with an asynchronous [render]
    only; a third whose renders both throw. *)
Definition noop_engine : engine :=
  mkEngine (VObj [("thisArg", VObj [("constructor", VFun "Template")]);
                  ("bindFunctions", VBool true)])
           (Some (fun content _ => Replies VNull content))
           (Some (fun content _ => Ok content))
           (VObj []).

Definition async_only_engine : engine :=
  mkEngine (VObj [("thisArg", VNull)])
           (Some (fun content _ => Replies VNull content))
           None
           (VObj []).

Definition failing_engine : engine :=
  mkEngine (VObj [("thisArg", VNull)])
           (Some (fun _ _ => Throws (Error "boom")))
           (Some (fun _ _ => Throw (Error "boom")))
           (VObj []).

(** The instance after [defaultConfig] and [defaultOptions], with global
    data an empty object and the three engines registered. *)
Definition bare : instance :=
  mkInstance default_options
    [("data", VObj []); ("mixins", VObj []); ("locals", VObj []);
     ("imports", VObj []); ("layouts", VObj []); ("partials", VObj []);
     ("anonymous", VObj []); ("pages", VObj [])]
    [] [] [] None [] [] VUndef []
    [(".*", 0); (".async", 1); (".bad", 2)]
    [(0, noop_engine); (1, async_only_engine); (2, failing_engine)]
    [] 0.

Definition with_option (this : instance) (k : string) (v : value) : instance :=
  mkInstance (set_field (options this) k v) (cache this)
    (templateType_partial this) (templateType_renderable this)
    (templateType_layout this) (viewType_renderable this)
    (layoutSettings this) (delims this) (currentDelims this) (helpers this)
    (engines this) (engine_heap this) (methods this) (ids this).

(** [bare] with the layout engine of [".md"] constructed. *)
Definition app : instance := lazyLayouts bare (VStr ".md") (VObj []).

(** The records of the documented scenarios. *)
Definition record_a_md : value :=
  VObj [("path", VStr "a.md"); ("content", VStr "x");
        ("options", VObj [("ext", VStr "hbs")])].

Definition record_front_matter : value :=
  VObj [("path", VStr "a.md"); ("content", VStr "This is content.");
        ("data", VObj [("name", VStr "AAA")]);
        ("locals", VObj [("name", VStr "BBB")]);
        ("options", VObj [])].

Definition home_page : value :=
  VObj [("path", VStr "home.md");
        ("content", VStr "This is home page content.");
        ("layout", VStr "default.md");
        ("options", VObj [])].

Definition typed_page : value :=
  VObj [("path", VStr "doc.md"); ("content", VStr "c");
        ("data", VObj []); ("locals", VObj []);
        ("options", VObj [("layout", VStr "base.md")])].

(** An instance whose process-wide default layout is ['default.md']. *)
Definition app_default_layout : instance :=
  with_option app "layout" (VStr "default.md").

(** Instances that skip [preprocess], rendering with the engine that has
    no synchronous render and with the engine whose renders throw. *)
Definition app_async_only : instance :=
  with_option (with_option app "preprocess" (VBool false))
    "viewEngine" (VStr ".async").

Definition app_failing : instance :=
  with_option (with_option app "preprocess" (VBool false))
    "viewEngine" (VStr ".bad").

(** [app_async_only] after [create('doc', 'docs')]. *)
Definition docs_async : instance :=
  match create app_async_only "doc" (VStr "docs") VUndef with
  | Ok this => this
  | Throw _ => app_async_only
  end.

(** The record [extendLocals('partial', undefined, locals)] makes up when
    the inclusion helper finds nothing under its key. *)
Definition missing_partial (locals : value) : value :=
  VObj [("_locals", VObj [("partial", VObj (extend [] [VUndef; locals]))])].

(* ================================================================== *)
(** ** More of lib/utils.js *)

Definition isNumber (v : value) : bool := typeOf v =? "number".

(** [arr[i]] on an array given as a list: [undefined] outside of it. *)
Definition index (arr : list value) (i : Z) : value :=
  if (i <? 0)%Z then VUndef else nth (Z.to_nat i) arr VUndef.

Definition num (v : value) : Z :=
  match v with
  | VNum n => n
  | _ => 0%Z
  end.

(** The loop shared by [utils.firstIndexOfType] and [utils.firstOfType]:
    [for (i = 0; i < len; i++) { if (idx && isNumber(idx)) i = i + idx;
    if (typeOf(arr[i]) === type) { ...; break; } }].  [Some (Some i)] is
    the index at which the loop breaks, [Some None] a loop that ends
    without a match; a negative [idx] can keep the loop running, which
    shows as [None] when [fuel] runs out. *)
Fixpoint typed_scan (fuel : nat) (type : string) (arr : list value)
  (idx : value) (i : Z) : option (option Z) :=
  match fuel with
  | O => None
  | S fuel' =>
      if (i <? Z.of_nat (List.length arr))%Z then
        let i := if truthy idx && isNumber idx then (i + num idx)%Z else i in
        if typeOf (index arr i) =? type then Some (Some i)
        else typed_scan fuel' type arr idx (i + 1)%Z
      else Some None
  end.

(** [utils.firstIndexOfType] *)
Definition firstIndexOfType (fuel : nat) (type : string) (arr : list value)
  (idx : value) : option value :=
  match typed_scan fuel type arr idx 0%Z with
  | Some (Some i) => Some (VNum i)
  | Some None => Some VNull
  | None => None
  end.

(** [utils.firstOfType] *)
Definition firstOfType (fuel : nat) (type : string) (arr : list value)
  (idx : value) : option value :=
  match typed_scan fuel type arr idx 0%Z with
  | Some (Some i) => Some (index arr i)
  | Some None => Some VNull
  | None => None
  end.

(** [utils.lastOfType]: the loop tests [last] at every turn. *)
Fixpoint lastOfType_loop (turns : nat) (type : string) (last : value) : value :=
  match turns with
  | O => VNull
  | S turns' =>
      if typeOf last =? type then last else lastOfType_loop turns' type last
  end.

Definition lastOfType (type : string) (arr : list value) : value :=
  lastOfType_loop (List.length arr) type
    (index arr (Z.of_nat (List.length arr) - 1)).

(* ================================================================== *)
(** ** More of index.js *)

(** [this.parsers]: a stack of parser objects per dotted extension. *)
Definition parser_stacks := list (string * list value).

(** The extension as [registerParser] and [getParsers] key it:
    [if (ext[0] !== '.') ext = '.' + ext]. *)
Definition dotted (ext : value) : string :=
  if utils.is_dot (utils.char0 ext) then to_string ext
  else "." ++ to_string ext.

(** [Template.prototype.registerParser], on its [arguments].  A parser
    given as an object is pushed as that object, and [parser.options] is
    written on it; the stacks here hold the object as it is pushed, and
    [getParsers] reads its [parse] and [parseSync] only. *)
Definition registerParser (parsers : parser_stacks) (args : list value)
  : result parser_stacks :=
  let last := List.last args VUndef in
  let '(ext, fn, opts) :=
    match nth 0 args VUndef with
    | VStr s => (s, nth 1 args VUndef, nth 2 args VUndef)
    | a0 => ("*", a0, nth 1 args VUndef)
    end in
  let ext := dotted (VStr ext) in
  let stack :=
    match lookup parsers ext with
    | Some st => st
    | None => []
    end in
  let parser :=
    match fn with
    | VFun _ => VObj [(if is_true last then "parseSync" else "parse", fn)]
    | _ => fn
    end in
  parser <-
    (if truthy opts && isObject opts then
       match parser with
       | VObj pfs => Ok (VObj (set_field pfs "options" opts))
       | VUndef | VNull =>
           Throw (TypeError "Cannot set property 'options' of undefined")
       | VFun _ | VErr _ _ => Ok parser
       | _ => Throw (TypeError "Cannot create property 'options' on a primitive")
       end
     else Ok parser) ;;
  Ok (store parsers ext (stack ++ [parser])%list).

Fixpoint map_result {A B} (f : A -> result B) (l : list A) : result (list B) :=
  match l with
  | [] => Ok []
  | a :: rest =>
      b <- f a ;;
      bs <- map_result f rest ;;
      Ok (b :: bs)
  end.

(** [Template.prototype.getParsers] *)
Definition getParsers (parsers : parser_stacks) (ext sync : value)
  : result (list value) :=
  match ext with
  | VUndef | VNull => Throw (TypeError "Cannot read property '0' of undefined")
  | _ =>
      match lookup parsers (dotted ext) with
      | None => Ok []
      | Some stack =>
          picked <- map_result
                      (fun p => prop p (if truthy sync then "parseSync"
                                        else "parse"))
                      stack ;;
          Ok (filter truthy picked)
      end
  end.

Fixpoint registerEach (parsers : parser_stacks) (exts rest : list value)
  : result parser_stacks :=
  match exts with
  | [] => Ok parsers
  | ext :: more =>
      parsers <- registerParser parsers (ext :: rest) ;;
      registerEach parsers more rest
  end.

(** [Template.prototype.parser] and [Template.prototype.parserSync];
    [utils.arrayify] (arrayify-compact) hands on the truthy entries. *)
Definition parser (parsers : parser_stacks) (exts : list value) (fn : value)
  : result parser_stacks :=
  registerEach parsers (filter truthy exts) [fn].

Definition parserSync (parsers : parser_stacks) (exts : list value)
  (fn : value) : result parser_stacks :=
  registerEach parsers (filter truthy exts) [fn; VBool true].

(** [Template.prototype.useDelims] *)
Definition useDelims (this : instance) (ext : value) : value * instance :=
  (ext,
   mkInstance (options this) (cache this) (templateType_partial this)
     (templateType_renderable this) (templateType_layout this)
     (viewType_renderable this) (layoutSettings this) (delims this)
     ext (helpers this) (engines this) (engine_heap this)
     (methods this) (ids this)).

(** [Template.prototype.getType] *)
Definition getType (this : instance) (type : string) : result fields :=
  let collect (arr : list string) :=
    fold_left (fun acc key => set_field acc key (cache_get this key)) arr [] in
  if type =? "partial" then Ok (collect (templateType_partial this))
  else if type =? "renderable" then Ok (collect (templateType_renderable this))
  else if type =? "layout" then Ok (collect (templateType_layout this))
  else Throw (TypeError "Cannot read property 'reduce' of undefined").

(** [Template.prototype.defaultTemplates] *)
Definition defaultTemplates (this : instance) : result instance :=
  this <- create this "page" (VStr "pages")
            (VObj [("isRenderable", VBool true)]) ;;
  this <- create this "layout" (VStr "layouts")
            (VObj [("isLayout", VBool true)]) ;;
  create this "partial" (VStr "partials") VUndef.

(** An instance on which [viewType.renderable] has been set from
    outside, with the same name cached under two renderable types. *)
Definition app_viewType : instance :=
  mkInstance default_options
    [("data", VObj []);
     ("pages", VObj [("b.md", VObj [("content", VStr "page b")])]);
     ("posts", VObj [("a.md", VObj [("content", VStr "post a")])]);
     ("docs", VObj [("a.md", VObj [("content", VStr "doc a")])])]
    [] ["pages"; "posts"; "docs"] [] (Some ["pages"; "posts"; "docs"])
    [] [] VUndef [] [(".*", 0)] [(0, noop_engine)] [] 0.

(** [bare] after [create('page', 'pages')], then after
    [create('Page', 'landings')]. *)
Definition page_app : instance :=
  match create bare "page" (VStr "pages") VUndef with
  | Ok this => this
  | Throw _ => bare
  end.

Definition landing_app : instance :=
  match create page_app "Page" (VStr "landings") VUndef with
  | Ok this => this
  | Throw _ => bare
  end.

(** An engine that reports an error through its callback, on an
    instance that skips [preprocess]. *)
Definition erring_engine : engine :=
  mkEngine (VObj [("thisArg", VNull)])
           (Some (fun content _ => Replies (Error "syntax error") content))
           None
           (VObj []).

Definition app_erring : instance :=
  mkInstance (set_field default_options "preprocess" (VBool false))
    [("data", VObj [])] [] [] [] None [] [] VUndef []
    [(".*", 0)] [(0, erring_engine)] [] 0.

(** An array and a registry of parsers to evaluate on. *)
Definition mixed_array : list value :=
  [VNum 1; VStr "a"; VObj []; VStr "b"; VNull].

Definition front_matter : value :=
  VObj [("parse", VFun "parse"); ("parseSync", VFun "parseSync")].

Definition md_parsers : parser_stacks :=
  [(".md", [front_matter]); (".*", [VObj [("parse", VFun "noop")]])].

(* ================================================================== *)
(** ** Facts about field lists *)

Section FieldFacts.

Implicit Types (fs : fields) (k : string) (v : value).

Lemma get_set_same fs k v : get_field (set_field fs k v) k = v.
Proof.
  induction fs as [|[k' v'] rest IH]; simpl.
  - now rewrite String.eqb_refl.
  - destruct (k' =? k) eqn:E; simpl.
    + now rewrite String.eqb_refl.
    + now rewrite E.
Qed.

Lemma get_set_other fs k k' v :
  k <> k' -> get_field (set_field fs k v) k' = get_field fs k'.
Proof.
  intros Hne. apply String.eqb_neq in Hne.
  induction fs as [|[k0 v0] rest IH]; simpl.
  - now rewrite Hne.
  - destruct (k0 =? k) eqn:E; simpl.
    + apply String.eqb_eq in E. subst k0. now rewrite Hne.
    + destruct (k0 =? k'); auto.
Qed.

Lemma has_set_same fs k v : has_field (set_field fs k v) k = true.
Proof.
  induction fs as [|[k' v'] rest IH]; simpl.
  - now rewrite String.eqb_refl.
  - destruct (k' =? k) eqn:E; simpl.
    + now rewrite String.eqb_refl.
    + now rewrite E.
Qed.

Lemma has_set_other fs k k' v :
  k <> k' -> has_field (set_field fs k v) k' = has_field fs k'.
Proof.
  intros Hne. apply String.eqb_neq in Hne.
  induction fs as [|[k0 v0] rest IH]; simpl.
  - now rewrite Hne.
  - destruct (k0 =? k) eqn:E; simpl.
    + apply String.eqb_eq in E. subst k0. now rewrite Hne.
    + now rewrite IH.
Qed.

Lemma get_absent fs k : has_field fs k = false -> get_field fs k = VUndef.
Proof.
  induction fs as [|[k' v'] rest IH]; simpl; auto.
  destruct (k' =? k); simpl; [discriminate | auto].
Qed.

Lemma get_has fs k : get_field fs k <> VUndef -> has_field fs k = true.
Proof.
  intros H. destruct (has_field fs k) eqn:E; auto.
  now rewrite (get_absent _ _ E) in H.
Qed.

Lemma set_set_same fs k v w :
  set_field (set_field fs k v) k w = set_field fs k w.
Proof.
  induction fs as [|[k' v'] rest IH]; simpl.
  - now rewrite String.eqb_refl.
  - destruct (k' =? k) eqn:E; simpl.
    + now rewrite String.eqb_refl.
    + now rewrite E, IH.
Qed.

(** [_.extend]: a key the source owns comes from the source. *)
Lemma get_assign_walk (src : fields) (l : fields) fs k :
  get_field
    (fold_left (fun acc kv => set_field acc (fst kv) (get_field src (fst kv)))
               l fs) k
  = if has_field l k then get_field src k else get_field fs k.
Proof.
  revert fs. induction l as [|[k' v'] rest IH]; intros fs; simpl; auto.
  rewrite IH. destruct (k' =? k) eqn:E; simpl.
  - apply String.eqb_eq in E. subst k'.
    destruct (has_field rest k); auto using get_set_same.
  - apply String.eqb_neq in E.
    destruct (has_field rest k); auto using get_set_other.
Qed.

Lemma get_assign fs (src : value) k :
  get_field (assign fs src) k
  = if hasOwn src k then get src k else get_field fs k.
Proof.
  destruct src; simpl; auto. apply get_assign_walk.
Qed.

(** [_.defaults]: a key already defined in the target stays. *)
Lemma get_default1_walk (src : fields) (l : fields) fs k :
  get_field
    (fold_left (fun acc kv =>
                  match get_field acc (fst kv) with
                  | VUndef => set_field acc (fst kv) (get_field src (fst kv))
                  | _ => acc
                  end) l fs) k
  = match get_field fs k with
    | VUndef => if has_field l k then get_field src k else VUndef
    | v => v
    end.
Proof.
  revert fs. induction l as [|[k' v'] rest IH]; intros fs; simpl.
  - destruct (get_field fs k); auto.
  - rewrite IH. destruct (k' =? k) eqn:E; simpl.
    + apply String.eqb_eq in E. subst k'.
      destruct (get_field fs k) eqn:G; try (rewrite G; reflexivity).
      rewrite get_set_same.
      destruct (get_field src k); auto; destruct (has_field rest k); auto.
    + apply String.eqb_neq in E.
      destruct (get_field fs k') eqn:G; auto.
      now rewrite get_set_other.
Qed.

Lemma get_default1 fs (src : value) k :
  get_field (default1 fs src) k
  = match get_field fs k with
    | VUndef => get src k
    | v => v
    end.
Proof.
  destruct src as [| | | | |sfs| |]; simpl;
    try (destruct (get_field fs k); reflexivity).
  rewrite get_default1_walk.
  destruct (get_field fs k); auto.
  destruct (has_field sfs k) eqn:H; auto.
  symmetry. now apply get_absent.
Qed.

(** [_.extend({}, v)] reads like [v]. *)
Lemma get_copy (src : value) k : get_field (extend [] [src]) k = get src k.
Proof.
  unfold extend. simpl. rewrite get_assign.
  destruct src as [| | | | |sfs| |]; simpl; auto.
  destruct (has_field sfs k) eqn:H; auto.
  symmetry. now apply get_absent.
Qed.

Lemma has_assign_walk (src : fields) (l : fields) fs k :
  has_field
    (fold_left (fun acc kv => set_field acc (fst kv) (get_field src (fst kv)))
               l fs) k
  = has_field l k || has_field fs k.
Proof.
  revert fs. induction l as [|[k' v'] rest IH]; intros fs; simpl; auto.
  rewrite IH. destruct (k' =? k) eqn:E; simpl.
  - apply String.eqb_eq in E. subst k'.
    rewrite has_set_same. apply orb_true_r.
  - apply String.eqb_neq in E. now rewrite has_set_other.
Qed.

Lemma has_copy (src : value) k : has_field (extend [] [src]) k = hasOwn src k.
Proof.
  unfold extend. simpl.
  destruct src as [| | | | |sfs| |]; simpl; auto.
  rewrite has_assign_walk. simpl. apply orb_false_r.
Qed.

End FieldFacts.

(* ================================================================== *)
(** ** Extension resolution ([utils.pickExt]) *)

(** The record's own [options] are consulted before the options handed
    in by the caller: once [template.options.ext] is set (and the record
    names no engine or extension of its own), the caller's options are
    never looked at. *)
Lemma pickExt_record_options_win (tfs ofs : fields) (callsite : value)
  (thisArg : option instance) :
  truthy (get_field tfs "engine") = false ->
  truthy (get_field tfs "ext") = false ->
  get_field tfs "options" = VObj ofs ->
  truthy (get_field ofs "engine") = false ->
  truthy (get_field ofs "ext") = true ->
  utils.pickExt (VObj tfs) callsite thisArg = Ok (get_field ofs "ext").
Proof.
  intros He Hx Ho Hoe Hox. unfold utils.pickExt.
  change (isObject (VObj tfs)) with true. cbv beta zeta iota.
  rewrite !get_copy. cbn [get]. rewrite He, Hx, Ho.
  cbn [get]. now rewrite Hoe, Hox.
Qed.

(** [record.path] is not an input of the resolution. *)
Lemma pickExt_ignores_path (tfs : fields) (p callsite : value)
  (thisArg : option instance) :
  utils.pickExt (VObj (set_field tfs "path" p)) callsite thisArg
  = utils.pickExt (VObj tfs) callsite thisArg.
Proof.
  unfold utils.pickExt.
  change (isObject (VObj (set_field tfs "path" p))) with true.
  change (isObject (VObj tfs)) with true. cbv beta zeta iota.
  rewrite !get_copy. cbn [get].
  rewrite !get_set_other by discriminate.
  reflexivity.
Qed.

(** C1 (evaluated at the documented scenario).  For the record with
    [options.ext = 'hbs'] and path ['a.md'], rendered with the call-site
    option [ext: 'jade'], [utils.pickExt] resolves the extension to
    ['hbs'], whatever the instance: the record's option is taken, not the
    call-site one. *)
Theorem pickExt_call_site_ext_loses :
  forall thisArg : option instance,
    utils.pickExt record_a_md (VObj [("ext", VStr "jade")]) thisArg
    = Ok (VStr "hbs").
Proof. intros thisArg. reflexivity. Qed.

(* ================================================================== *)
(** ** Layout application ([applyLayout], [utils.pickLayout]) *)

Lemma pickContent_content (tfs : fields) :
  get (utils.pickContent (VObj tfs)) "content" = get_field tfs "content".
Proof.
  simpl. destruct (has_field tfs "content") eqn:H; simpl; auto.
  symmetry. now apply get_absent.
Qed.

(** The branch of [applyLayout] taken on a record not yet marked: the
    record is marked, and the call stops at [utils.isPartial]. *)
Lemma applyLayout_unmarked (env : collaborators) (this : instance)
  (ext locals : value) (tfs ofs : fields) :
  truthy (get_field (layoutSettings this) (to_string ext)) = true ->
  get_field tfs "options" = VObj ofs ->
  truthy (get_field ofs "hasLayout") = false ->
  applyLayout env this ext (VObj tfs) locals
  = (marked tfs ofs, Throw (TypeError "utils.isPartial is not a function")).
Proof.
  intros HL Ho Hh. unfold applyLayout. rewrite HL.
  cbn [prop get]. rewrite Ho. cbn [prop get]. rewrite Hh.
  reflexivity.
Qed.

(** The branch of [applyLayout] taken on a record already marked. *)
Lemma applyLayout_marked (env : collaborators) (this : instance)
  (ext locals : value) (tfs ofs : fields) :
  truthy (get_field (layoutSettings this) (to_string ext)) = true ->
  applyLayout env this ext (marked tfs ofs) locals
  = (marked tfs ofs, Ok (get_field tfs "content")).
Proof.
  intros HL. unfold applyLayout, marked. rewrite HL.
  cbn [prop get]. rewrite get_set_same. cbn [prop get].
  rewrite get_set_same. cbn [truthy negb].
  rewrite pickContent_content.
  now rewrite get_set_other by discriminate.
Qed.

(** C3 (what the code does on two applications).  When a layout engine
    exists for the extension and the record is not yet marked, the first
    [applyLayout] marks the record and then throws a [TypeError] at the
    call of [utils.isPartial], which [lib/utils.js] does not define: it
    returns no wrapped string.  Applying [applyLayout] again to the
    record the first call left returns the record's own unwrapped
    content.  The two applications do not yield the same output. *)
Theorem applyLayout_second_call_unwrapped :
  forall (env : collaborators) (this : instance) (ext locals : value)
         (tfs ofs : fields),
    truthy (get_field (layoutSettings this) (to_string ext)) = true ->
    get_field tfs "options" = VObj ofs ->
    truthy (get_field ofs "hasLayout") = false ->
    applyLayout env this ext (VObj tfs) locals
    = (marked tfs ofs, Throw (TypeError "utils.isPartial is not a function"))
    /\ applyLayout env this ext
         (fst (applyLayout env this ext (VObj tfs) locals)) locals
       = (marked tfs ofs, Ok (get_field tfs "content")).
Proof.
  intros env this ext locals tfs ofs HL Ho Hh.
  rewrite (applyLayout_unmarked env this ext locals tfs ofs HL Ho Hh).
  split; [reflexivity|].
  now apply applyLayout_marked.
Qed.

(** At the page of the documented scenario: the first application
    throws and leaves the page marked, the second gives the bare
    content. *)
Lemma applyLayout_second_call_unwrapped_witness :
  applyLayout standins app (VStr ".md") home_page (VObj [])
    = (marked [("path", VStr "home.md");
               ("content", VStr "This is home page content.");
               ("layout", VStr "default.md"); ("options", VObj [])] [],
       Throw (TypeError "utils.isPartial is not a function"))
  /\ applyLayout standins app (VStr ".md")
       (fst (applyLayout standins app (VStr ".md") home_page (VObj [])))
       (VObj [])
     = (marked [("path", VStr "home.md");
                ("content", VStr "This is home page content.");
                ("layout", VStr "default.md"); ("options", VObj [])] [],
        Ok (VStr "This is home page content.")).
Proof.
  exact (applyLayout_second_call_unwrapped standins app (VStr ".md") (VObj [])
           [("path", VStr "home.md");
            ("content", VStr "This is home page content.");
            ("layout", VStr "default.md"); ("options", VObj [])] []
           eq_refl eq_refl eq_refl).
Defined.

(** [utils.pickLayout] on the marked record: the four places where a
    [layout] property is looked for, in the order of the loop. *)
Lemma pickLayout_marked (tfs ofs : fields) :
  get_field tfs "options" = VObj ofs ->
  (has_field tfs "layout" = true ->
   utils.pickLayout (marked tfs ofs) = get_field tfs "layout")
  /\ (has_field tfs "layout" = false ->
      hasOwn (get_field tfs "data") "layout" = true ->
      utils.pickLayout (marked tfs ofs) = get (get_field tfs "data") "layout")
  /\ (has_field tfs "layout" = false ->
      hasOwn (get_field tfs "data") "layout" = false ->
      hasOwn (get_field tfs "locals") "layout" = true ->
      utils.pickLayout (marked tfs ofs)
      = get (get_field tfs "locals") "layout")
  /\ (has_field tfs "layout" = false ->
      hasOwn (get_field tfs "data") "layout" = false ->
      hasOwn (get_field tfs "locals") "layout" = false ->
      has_field ofs "layout" = true ->
      utils.pickLayout (marked tfs ofs) = get_field ofs "layout").
Proof.
  intros Ho.
  assert (Hdata : forall b, hasOwn (get_field tfs "data") "layout" = true ->
                            has_field tfs "data" = b -> b = true).
  { intros b H Hb. destruct b; auto.
    rewrite (get_absent _ _ Hb) in H. discriminate. }
  assert (Hlocals : forall b, hasOwn (get_field tfs "locals") "layout" = true ->
                              has_field tfs "locals" = b -> b = true).
  { intros b H Hb. destruct b; auto.
    rewrite (get_absent _ _ Hb) in H. discriminate. }
  unfold utils.pickLayout, utils.pickFrom, marked.
  cbn [utils.pickFrom_loop].
  rewrite !(has_set_other tfs "options") by discriminate.
  rewrite !(get_set_other tfs "options") by discriminate.
  rewrite has_set_same, get_set_same. cbn [hasOwn get].
  rewrite (has_set_other ofs "hasLayout") by discriminate.
  rewrite (get_set_other ofs "hasLayout") by discriminate.
  repeat split.
  - intros ->. reflexivity.
  - intros -> Hd. rewrite Hd.
    now rewrite (Hdata (has_field tfs "data") Hd eq_refl).
  - intros -> Hd Hl. rewrite Hd, Hl.
    rewrite (Hlocals (has_field tfs "locals") Hl eq_refl).
    destruct (has_field tfs "data"); reflexivity.
  - intros -> Hd Hl Hopt. rewrite Hd, Hl, Hopt.
    destruct (has_field tfs "data"), (has_field tfs "locals"); reflexivity.
Qed.

(** C4 (as the code resolves it).  The layout name [utils.pickLayout]
    resolves for a record is the record's own [layout] if the record has
    that property, else [data.layout], else [locals.layout], else the
    [layout] of the record's own [options].  It is resolved from the
    record alone: the process-wide [layout] option of the instance is
    not among the places looked at. *)
Theorem pickLayout_precedence :
  forall tfs : fields,
    (has_field tfs "layout" = true ->
     utils.pickLayout (VObj tfs) = get_field tfs "layout")
    /\ (has_field tfs "layout" = false ->
        hasOwn (get_field tfs "data") "layout" = true ->
        utils.pickLayout (VObj tfs) = get (get_field tfs "data") "layout")
    /\ (has_field tfs "layout" = false ->
        hasOwn (get_field tfs "data") "layout" = false ->
        hasOwn (get_field tfs "locals") "layout" = true ->
        utils.pickLayout (VObj tfs) = get (get_field tfs "locals") "layout")
    /\ (has_field tfs "layout" = false ->
        hasOwn (get_field tfs "data") "layout" = false ->
        hasOwn (get_field tfs "locals") "layout" = false ->
        hasOwn (get_field tfs "options") "layout" = true ->
        utils.pickLayout (VObj tfs) = get (get_field tfs "options") "layout").
Proof.
  intros tfs.
  assert (Hown : forall p, hasOwn (get_field tfs p) "layout" = true ->
                           has_field tfs p = true).
  { intros p H. destruct (has_field tfs p) eqn:Hb; auto.
    rewrite (get_absent _ _ Hb) in H. discriminate. }
  unfold utils.pickLayout, utils.pickFrom. cbn [utils.pickFrom_loop].
  split; [|split; [|split]].
  - intros ->. reflexivity.
  - intros -> Hd. now rewrite (Hown _ Hd), Hd.
  - intros -> Hd Hl. rewrite Hd, (Hown _ Hl), Hl.
    destruct (has_field tfs "data"); reflexivity.
  - intros -> Hd Hl Ho. rewrite Hd, Hl, (Hown _ Ho), Ho.
    destruct (has_field tfs "data"), (has_field tfs "locals"); reflexivity.
Qed.

(** The page of the documented scenario names its layout itself; the
    typed page has it from its own options. *)
Lemma pickLayout_precedence_witness :
  utils.pickLayout home_page = VStr "default.md"
  /\ utils.pickLayout typed_page = VStr "base.md".
Proof.
  split.
  - exact (proj1 (pickLayout_precedence
                    [("path", VStr "home.md");
                     ("content", VStr "This is home page content.");
                     ("layout", VStr "default.md"); ("options", VObj [])])
             eq_refl).
  - exact (proj2 (proj2 (proj2 (pickLayout_precedence
                    [("path", VStr "doc.md"); ("content", VStr "c");
                     ("data", VObj []); ("locals", VObj []);
                     ("options", VObj [("layout", VStr "base.md")])])))
             eq_refl eq_refl eq_refl eq_refl).
Defined.

(** C4 (counterexample).  A record without [layout], [data.layout] or
    [locals.layout], registered with the per-template option
    [layout: 'base.md'], on an instance whose process-wide default layout
    is ['default.md']: the documented precedence names ['default.md'],
    [utils.pickLayout] resolves ['base.md'], and [applyLayout] wraps
    with neither: it throws. *)
Lemma default_layout_not_consulted :
  documented_layout typed_page (option_ app_default_layout "layout")
    = VStr "default.md"
  /\ utils.pickLayout typed_page = VStr "base.md"
  /\ snd (applyLayout standins app_default_layout (VStr ".md") typed_page
            (VObj []))
     = Throw (TypeError "utils.isPartial is not a function").
Proof. repeat split. Qed.

(** Where no container owns a [layout], what [utils.pickLayout] resolves
    is the last container itself: on a marked record, its [options]
    object. *)
Lemma pickLayout_falls_back_on_container (tfs ofs : fields) :
  get_field tfs "options" = VObj ofs ->
  has_field tfs "layout" = false ->
  hasOwn (get_field tfs "data") "layout" = false ->
  hasOwn (get_field tfs "locals") "layout" = false ->
  has_field ofs "layout" = false ->
  utils.pickLayout (marked tfs ofs)
  = VObj (set_field ofs "hasLayout" (VBool true)).
Proof.
  intros Ho Hl Hd Hlo Hopt.
  unfold utils.pickLayout, utils.pickFrom, marked.
  cbn [utils.pickFrom_loop].
  rewrite !(has_set_other tfs "options") by discriminate.
  rewrite !(get_set_other tfs "options") by discriminate.
  rewrite has_set_same, get_set_same. cbn [hasOwn get].
  rewrite (has_set_other ofs "hasLayout") by discriminate.
  rewrite Hl, Hd, Hlo, Hopt.
  destruct (has_field tfs "data"), (has_field tfs "locals"); reflexivity.
Qed.

(* ================================================================== *)
(** ** The render context ([mergeFn]) *)

Lemma get_defaults_three (a b : value) (k : string) :
  get_field (defaults [] [VObj []; a; b]) k
  = match get a k with
    | VUndef => get b k
    | v => v
    end.
Proof.
  unfold defaults. cbn [fold_left]. rewrite !get_default1.
  simpl. destruct (get a k); reflexivity.
Qed.

(** C2 (as the code merges).  With [preferLocals] not set to [true] and
    no [mergeFn] option, for a record and a key (other than [helpers])
    that the record's [data] defines and the caller's locals do not own,
    the context built by [mergeFn] holds the value of [data] under that
    key, whatever the record's [locals] hold. *)
Theorem mergeFn_data_over_locals :
  forall (env : collaborators) (this : instance) (template locals : value)
         (k : string) (v : value),
    truthy (option_ this "mergeFn") = false ->
    is_true (option_ this "preferLocals") = false ->
    isObject template = true ->
    isObject (cache_get this "data") = true ->
    get (get template "data") k = v ->
    v <> VUndef ->
    k <> "helpers" ->
    hasOwn locals k = false ->
    exists (ctx : value) (this' : instance),
      mergeFn env this template locals = Ok (ctx, this')
      /\ get ctx k = v.
Proof.
  intros env this template locals k v Hc Hp Ht Hd Hv Hdef Hk Hl.
  unfold mergeFn. rewrite Hc, Hp, Ht.
  destruct (cache_get this "data") as [| | | | |dfs| |] eqn:D;
    try discriminate.
  eexists. eexists. split; [reflexivity|].
  cbn [extend_value get]. unfold extend. cbn [fold_left].
  rewrite get_assign, Hl, get_assign. cbn [hasOwn get].
  assert (Ho : get_field
                 (defaults [] [VObj []; get template "data";
                               get template "locals"]) k = v).
  { rewrite get_defaults_three, Hv. destruct v; congruence. }
  rewrite has_set_other by congruence.
  rewrite get_set_other by congruence.
  rewrite (get_has _ _ (eq_ind_r (fun x => x <> VUndef) Hdef Ho)).
  exact Ho.
Qed.

Lemma mergeFn_data_over_locals_witness :
  exists (ctx : value) (this' : instance),
    mergeFn standins app record_front_matter (VObj []) = Ok (ctx, this')
    /\ get ctx "name" = VStr "AAA".
Proof.
  apply (mergeFn_data_over_locals standins app record_front_matter (VObj [])
           "name" (VStr "AAA")); try reflexivity; discriminate.
Defined.

(** C2 (counterexample).  For the record with [data = {name: 'AAA'}] and
    [locals = {name: 'BBB'}]: with the option [preferLocals] set, the
    context's [name] is ['BBB']; and under the default options, a render
    call that passes [{name: 'CCC'}] gets ['CCC']. *)
Lemma mergeFn_front_matter_overridden :
  (exists (ctx : value) (this' : instance),
      mergeFn standins (with_option app "preferLocals" (VBool true))
        record_front_matter (VObj []) = Ok (ctx, this')
      /\ get ctx "name" = VStr "BBB")
  /\ (exists (ctx : value) (this' : instance),
         mergeFn standins app record_front_matter
           (VObj [("name", VStr "CCC")]) = Ok (ctx, this')
         /\ get ctx "name" = VStr "CCC").
Proof.
  split; eexists; eexists; (split; [reflexivity|]); reflexivity.
Qed.

(* ================================================================== *)
(** ** [render] and [renderSync] *)

Lemma getEngine_options (env : collaborators) (this this' : instance)
  (ext : value) (e : engine) :
  getEngine env this ext = Ok (e, this') -> options this' = options this.
Proof.
  unfold getEngine.
  destruct (Engines_get env (engines this) ext) as [r|]; [|discriminate].
  destruct (deref (engine_heap this) r) as [e0|]; [|discriminate].
  destruct (e_options e0); try discriminate.
  intros H. injection H as _ H. now subst this'.
Qed.

(** With the [cache] option on, [preprocess] of a string goes through
    [utils.pickCached], whose read of [thisArg.viewType] throws. *)
Lemma preprocess_string_throws (env : collaborators) (this : instance)
  (name : string) (locals : value) :
  truthy (option_ this "cache") = true ->
  preprocess env this (VStr name) locals
  = Throw (TypeError "Cannot read property 'viewType' of undefined").
Proof.
  intros Hc. unfold preprocess. rewrite Hc. reflexivity.
Qed.

(** Under the default options [cache] and [preprocess], [render] of any
    string ends in an exception at the caller. *)
Lemma render_string_content_throws (env : collaborators) (this : instance)
  (name : string) (locals : value) :
  truthy (option_ this "cache") = true ->
  truthy (option_ this "preprocess") = true ->
  exists e : value, render env this (VStr name) locals = Thrown e.
Proof.
  intros Hc Hp. unfold render, prepare.
  destruct (getEngine env this (option_ this "viewEngine")) as [[e this']|err]
    eqn:G; cbn [bind].
  - pose proof (getEngine_options _ _ _ _ _ G) as Ho.
    assert (Hc' : truthy (option_ this' "cache") = true)
      by (unfold option_; now rewrite Ho).
    assert (Hp' : truthy (option_ this' "preprocess") = true)
      by (unfold option_; now rewrite Ho).
    rewrite Hp', (preprocess_string_throws env this' name _ Hc').
    eauto.
  - eauto.
Qed.

(** Whatever the engine lookup or [preprocess] throws is thrown by
    [render]: both run before the [try]. *)
Lemma render_prepare_failure_is_thrown (env : collaborators)
  (this : instance) (content locals e : value) :
  prepare env this content (callsite_locals locals) = Throw e ->
  render env this content locals = Thrown e.
Proof.
  intros H. unfold render. now rewrite H.
Qed.

(** C6 (counterexample).  [render('home.md', {}, cb)] on an instance with
    the default options and the default engine registered: the failure of
    the template lookup is thrown at the caller; [cb] is not called. *)
Lemma render_lookup_failure_is_thrown :
  render standins app (VStr "home.md") (VObj [])
  = Thrown (TypeError "Cannot read property 'viewType' of undefined").
Proof. reflexivity. Qed.

(** C6 (as the code channels errors).  Once the engine has been resolved
    (engine lookup and [preprocess] have returned), [render] does not
    throw at its caller: an exception thrown by the engine's [render] is
    passed to the callback as its error argument. *)
Theorem render_engine_error_reaches_callback :
  forall (env : collaborators) (this this' : instance)
         (content locals : value) (pre : preprocessed),
    prepare env this content (callsite_locals locals) = Ok (pre, this') ->
    (forall e : value, render env this content locals <> Thrown e)
    /\ (forall (f : value -> value -> engine_reply) (e : value),
           e_render (pre_engine pre) = Some f ->
           f (pre_content pre) (pre_locals pre) = Throws e ->
           render env this content locals = Callback e VUndef).
Proof.
  intros env this this' content locals pre H.
  unfold render. rewrite H. split.
  - intros e. destruct (e_render (pre_engine pre)) as [f|]; [|discriminate].
    destruct (f (pre_content pre) (pre_locals pre)); try discriminate.
    destruct (Helpers_resolve env res). discriminate.
  - intros f e Hf He. now rewrite Hf, He.
Qed.

Lemma render_engine_error_reaches_callback_witness :
  render standins app_failing (VStr "x") (VObj [])
  = Callback (Error "boom") VUndef.
Proof.
  destruct (render_engine_error_reaches_callback standins app_failing
              (set_engine_heap app_failing
                 (update (engine_heap app_failing) 2 failing_engine))
              (VStr "x") (VObj [])
              (mkPre (VStr "x") failing_engine (VObj []))
              eq_refl) as [_ H].
  exact (H (fun _ _ => Throws (Error "boom")) (Error "boom") eq_refl eq_refl).
Defined.

(** C7.  Whenever [renderSync] has resolved its engine: if the engine has
    no [renderSync], the call throws the error reporting the missing
    synchronous render; if it has one and that throws, the thrown error
    is the value returned. *)
Theorem renderSync_engine_contract :
  forall (env : collaborators) (this this' : instance)
         (content locals : value) (pre : preprocessed),
    prepare env this content locals = Ok (pre, this') ->
    (e_renderSync (pre_engine pre) = None ->
     renderSync env this content locals
     = Throw (Error ("`.renderSync()` method not found on engine: " ++ dq
                     ++ "[object Object]" ++ dq ++ ".")))
    /\ (forall (f : value -> value -> result value) (err : value),
           e_renderSync (pre_engine pre) = Some f ->
           f (pre_content pre) (pre_locals pre) = Throw err ->
           renderSync env this content locals = Ok (err, this')).
Proof.
  intros env this this' content locals pre H.
  unfold renderSync. rewrite H. cbn [bind]. split.
  - intros Hn. now rewrite Hn.
  - intros f err Hf He. now rewrite Hf, He.
Qed.

Lemma renderSync_engine_contract_witness :
  renderSync standins app_async_only (VStr "x") (VObj [])
    = Throw (Error ("`.renderSync()` method not found on engine: " ++ dq
                    ++ "[object Object]" ++ dq ++ "."))
  /\ renderSync standins app_failing (VStr "x") (VObj [])
     = Ok (Error "boom",
           set_engine_heap app_failing
             (update (engine_heap app_failing) 2 failing_engine)).
Proof.
  split.
  - exact (proj1 (renderSync_engine_contract standins app_async_only
                    (set_engine_heap app_async_only
                       (update (engine_heap app_async_only) 1
                          async_only_engine))
                    (VStr "x") (VObj [])
                    (mkPre (VStr "x") async_only_engine (VObj []))
                    eq_refl) eq_refl).
  - exact (proj2 (renderSync_engine_contract standins app_failing
                    (set_engine_heap app_failing
                       (update (engine_heap app_failing) 2 failing_engine))
                    (VStr "x") (VObj [])
                    (mkPre (VStr "x") failing_engine (VObj []))
                    eq_refl)
                 (fun _ _ => Throw (Error "boom")) (Error "boom")
                 eq_refl eq_refl).
Defined.

(* ================================================================== *)
(** ** Type registration ([create]) and its inclusion helper *)

(** C8 (as the code guards).  [create] throws its plural-form error
    exactly when [plural] is not a string; for a non-empty singular name
    it throws anything at all only in that case.  The empty string is a
    string: it passes the guard. *)
Theorem create_plural_guard :
  forall (this : instance) (type : string) (plural opts : value),
    (isString plural = false ->
     create this type plural opts
     = Throw (Error ("A plural form must be defined for: " ++ dq ++ type
                     ++ dq ++ ".")))
    /\ (type <> "" ->
        ((exists e : value, create this type plural opts = Throw e)
         <-> isString plural = false)).
Proof.
  intros this type plural opts. split.
  - destruct plural; simpl; intros H; try reflexivity; discriminate.
  - intros Ht. split.
    + intros [e He]. destruct plural; try reflexivity.
      simpl in He. destruct type; [now contradiction Ht | discriminate].
    + intros H. destruct plural; try discriminate; simpl; eauto.
Qed.

Lemma create_plural_guard_witness :
  create bare "page" VUndef (VObj [("isRenderable", VBool true)])
    = Throw (Error ("A plural form must be defined for: " ++ dq ++ "page"
                    ++ dq ++ "."))
  /\ ((exists e : value,
          create bare "page" (VStr "pages")
            (VObj [("isRenderable", VBool true)]) = Throw e)
      <-> isString (VStr "pages") = false).
Proof.
  split.
  - exact (proj1 (create_plural_guard bare "page" VUndef
                    (VObj [("isRenderable", VBool true)])) eq_refl).
  - apply (proj2 (create_plural_guard bare "page" (VStr "pages")
                    (VObj [("isRenderable", VBool true)]))).
    discriminate.
Defined.

(** C8 (counterexample).  [create('page', '')]: the plural name is not a
    non-empty string, and [create] returns without throwing. *)
Lemma create_accepts_empty_plural :
  nonempty_string (VStr "") = false
  /\ exists this' : instance, create bare "page" (VStr "") VUndef = Ok this'.
Proof. split; [reflexivity | eexists; reflexivity]. Qed.

Lemma lookup_store_same {A} (l : list (string * A)) (k : string) (a : A) :
  lookup (store l k a) k = Some a.
Proof.
  induction l as [|[k' a'] rest IH]; simpl.
  - now rewrite String.eqb_refl.
  - destruct (k' =? k) eqn:E; simpl.
    + now rewrite String.eqb_refl.
    + now rewrite E.
Qed.

(** The helper [create] registers for a type that had none: the
    synchronous one of [defaultHelpers]. *)
Lemma create_registers_sync_helper (this this' : instance)
  (type plural : string) (opts : value) :
  create this type (VStr plural) opts = Ok this' ->
  lookup (helpers this) type = None ->
  lookup (helpers this') type = Some (IncludeSync plural).
Proof.
  unfold create. destruct type as [|c rest]; [discriminate|].
  cbn [helpers set_methods set_cache trackType set_templateType].
  intros H Hn. rewrite Hn in H. injection H as H. subst this'.
  cbn [defaultHelpers helpers set_helpers set_methods set_cache trackType
       set_templateType].
  apply lookup_store_same.
Qed.

(** C9 (what the registered helper does with an unknown key).  The helper
    that [create] registers under the singular name, called with a key
    its collection does not hold, hands the record made up from
    [undefined] to [renderSync] and answers whatever that call answers,
    an exception included. *)
Theorem include_helper_unknown_key :
  forall (env : collaborators) (this this' : instance)
         (type plural : string) (opts key locals : value) (c : fields),
    create this type (VStr plural) opts = Ok this' ->
    lookup (helpers this) type = None ->
    cache_get this' plural = VObj c ->
    has_field c (to_string key) = false ->
    call_helper env this' type key locals
    = Some (renderSync env this' (missing_partial locals) VUndef).
Proof.
  intros env this this' type plural opts key locals c Hc Hn Hcoll Hk.
  unfold call_helper.
  rewrite (create_registers_sync_helper _ _ _ _ _ Hc Hn).
  unfold include_sync. rewrite Hcoll. cbn [prop get bind].
  now rewrite (get_absent _ _ Hk).
Qed.

(** With an engine that offers no synchronous render, the helper called
    with an unknown key throws. *)
Lemma include_helper_unknown_key_witness :
  call_helper standins docs_async "doc" (VStr "missing.md") (VObj [])
  = Some (Throw (Error ("`.renderSync()` method not found on engine: "
                        ++ dq ++ "[object Object]" ++ dq ++ "."))).
Proof.
  rewrite (include_helper_unknown_key standins app_async_only docs_async
             "doc" "docs" VUndef (VStr "missing.md") (VObj []) []
             eq_refl eq_refl eq_refl eq_refl).
  reflexivity.
Defined.

(** The helper of [defaultAsyncHelpers], which [create] does not
    register: for an unknown key it writes one line to the console and
    answers the empty string. *)
Lemma include_async_unknown_key (env : collaborators) (this : instance)
  (type plural : string) (name locals : value) (c : fields) :
  cache_get this plural = VObj c ->
  has_field c (to_string name) = false ->
  include_async env this type plural name locals
  = (["helper {{" ++ type ++ " " ++ dq ++ to_string name ++ dq
      ++ "}} not found."],
     Callback VNull (VStr "")).
Proof.
  intros Hc Hk. unfold include_async. rewrite Hc. cbn [prop get].
  now rewrite (get_absent _ _ Hk).
Qed.

(* ================================================================== *)
(** ** Engine lookup ([getEngine]) *)

Lemma deref_update_same {A} (h : list (nat * A)) (r : nat) (a : A) :
  deref (update h r a) r = Some a.
Proof.
  induction h as [|[r' a'] rest IH]; simpl.
  - now rewrite Nat.eqb_refl.
  - destruct (Nat.eqb r' r) eqn:E; simpl.
    + now rewrite Nat.eqb_refl.
    + now rewrite E.
Qed.

(** C10.  A call of [getEngine] that finds an engine returns it with
    [options.thisArg] set to [null] and leaves the registry holding the
    object so written: every later lookup that reaches the same object
    gets it with [thisArg] null, and where [thisArg] was not null before,
    the instance after the call differs from the one before. *)
Theorem getEngine_writes_registry :
  forall (env : collaborators) (this : instance) (ext : value) (r : nat)
         (e : engine) (ofs : fields),
    Engines_get env (engines this) ext = Some r ->
    deref (engine_heap this) r = Some e ->
    e_options e = VObj ofs ->
    exists (e' : engine) (this' : instance),
      getEngine env this ext = Ok (e', this')
      /\ get (e_options e') "thisArg" = VNull
      /\ engines this' = engines this
      /\ deref (engine_heap this') r = Some e'
      /\ (forall ext' : value,
             Engines_get env (engines this') ext' = Some r ->
             exists this'' : instance,
               getEngine env this' ext' = Ok (e', this''))
      /\ (get_field ofs "thisArg" <> VNull -> this' <> this).
Proof.
  intros env this ext r e ofs Hg Hd Ho.
  unfold getEngine at 1. rewrite Hg, Hd, Ho.
  eexists. eexists. split; [reflexivity|].
  repeat split.
  - cbn [e_options get]. apply get_set_same.
  - cbn [engine_heap set_engine_heap]. apply deref_update_same.
  - intros ext' Hg'. unfold getEngine.
    rewrite Hg'. cbn [engine_heap set_engine_heap].
    rewrite deref_update_same. cbn [e_options e_render e_renderSync e_helpers].
    rewrite set_set_same. eauto.
  - intros Hne Heq. apply (f_equal engine_heap) in Heq.
    cbn [engine_heap set_engine_heap] in Heq.
    apply (f_equal (fun h => deref h r)) in Heq.
    rewrite deref_update_same, Hd in Heq.
    injection Heq as Heq. apply (f_equal e_options) in Heq.
    cbn [e_options] in Heq. rewrite Ho in Heq. injection Heq as Heq.
    apply Hne. rewrite <- Heq. apply get_set_same.
Qed.

Lemma getEngine_writes_registry_witness :
  exists (e' : engine) (this' : instance),
    getEngine standins app (VStr ".*") = Ok (e', this')
    /\ get (e_options e') "thisArg" = VNull
    /\ this' <> app.
Proof.
  destruct (getEngine_writes_registry standins app (VStr ".*") 0 noop_engine
              [("thisArg", VObj [("constructor", VFun "Template")]);
               ("bindFunctions", VBool true)]
              eq_refl eq_refl eq_refl)
    as (e' & this' & Hg & Hnull & _ & _ & _ & Hdiff).
  exists e', this'. repeat split; auto.
  apply Hdiff. discriminate.
Defined.

(* ================================================================== *)
(** ** Further properties of lib/utils.js *)

(** X1.  [utils.formatExt] is idempotent on every value: an extension
    that went through it once is left alone by a second pass. *)
Theorem formatExt_idempotent :
  forall ext : value,
    utils.formatExt (utils.formatExt ext) = utils.formatExt ext.
Proof.
  intros ext. unfold utils.formatExt.
  destruct (truthy ext && negb (utils.is_dot (utils.char0 ext))) eqn:E.
  - reflexivity.
  - now rewrite E.
Qed.

(** [utils.formatExt] of a non-empty string is that string with
    exactly one leading dot ensured: it starts with a dot, and a string
    that already starts with one is returned as it is. *)
Theorem formatExt_dotted :
  forall (c : ascii) (s : string),
    utils.formatExt (VStr (String c s))
    = VStr (if Ascii.eqb c "."%char then String c s
            else String "."%char (String c s)).
Proof.
  intros c s. unfold utils.formatExt. cbn [truthy utils.char0 utils.is_dot].
  change (String c s =? "") with false. cbn [negb andb].
  change (String c "" =? ".") with (Ascii.eqb c "."%char && true).
  rewrite andb_true_r.
  destruct (Ascii.eqb c "."%char); reflexivity.
Qed.

(** The loop of [utils.pickFrom] while no container owns the key. *)
Lemma pickFrom_loop_skip (fs : fields) (key : string) (pre rest : list string)
  (val : value) :
  (forall q, In q pre -> hasOwn (get_field fs q) key = false) ->
  utils.pickFrom_loop fs key (pre ++ rest) val
  = utils.pickFrom_loop fs key rest
      (fold_left (fun v q => if has_field fs q then get_field fs q else v)
                 pre val).
Proof.
  revert val. induction pre as [|q pre IH]; intros val H; simpl; auto.
  rewrite (H q (or_introl eq_refl)).
  destruct (has_field fs q); apply IH; intros q' Hq'; apply H; now right.
Qed.

(** X2.  [utils.pickFrom] searches the listed properties in order: the
    value comes from the first listed container that owns the key,
    whatever the later ones hold. *)
Theorem pickFrom_first_owner :
  forall (fs : fields) (key p : string) (pre post : list string),
    has_field fs key = false ->
    (forall q, In q pre -> hasOwn (get_field fs q) key = false) ->
    hasOwn (get_field fs p) key = true ->
    utils.pickFrom (VObj fs) key (pre ++ p :: post)
    = get (get_field fs p) key.
Proof.
  intros fs key p pre post Hk Hpre Hp.
  unfold utils.pickFrom. rewrite Hk, (pickFrom_loop_skip _ _ _ _ _ Hpre).
  simpl. rewrite Hp.
  destruct (has_field fs p) eqn:E; auto.
  rewrite (get_absent _ _ E) in Hp. discriminate.
Qed.

Lemma pickFrom_first_owner_witness :
  utils.pickFrom typed_page "layout" (["data"; "locals"] ++ "options" :: [])
  = VStr "base.md".
Proof.
  apply (pickFrom_first_owner
           [("path", VStr "doc.md"); ("content", VStr "c");
            ("data", VObj []); ("locals", VObj []);
            ("options", VObj [("layout", VStr "base.md")])]
           "layout" "options" ["data"; "locals"] []).
  - reflexivity.
  - intros q [<-|[<-|[]]]; reflexivity.
  - reflexivity.
Defined.

(** The result of [utils.pickFrom] when neither the object nor a listed
    container owns the key, as a fold over the listed properties. *)
Lemma pickFrom_unowned_fold (fs : fields) (key : string) (arr : list string) :
  has_field fs key = false ->
  (forall q, In q arr -> hasOwn (get_field fs q) key = false) ->
  utils.pickFrom (VObj fs) key arr
  = fold_left (fun v q => if has_field fs q then get_field fs q else v)
              arr VNull.
Proof.
  intros Hk Harr. unfold utils.pickFrom. rewrite Hk.
  rewrite <- (app_nil_r arr) at 1.
  now rewrite (pickFrom_loop_skip _ _ _ _ _ Harr).
Qed.

Lemma fold_unowned (fs : fields) (arr : list string) (val : value) :
  (forall q, In q arr -> has_field fs q = false) ->
  fold_left (fun v q => if has_field fs q then get_field fs q else v) arr val
  = val.
Proof.
  revert val. induction arr as [|q arr IH]; intros val H; simpl; auto.
  rewrite (H q (or_introl eq_refl)). apply IH. intros q' Hq'. apply H.
  now right.
Qed.

(** X3.  When neither the object nor any listed container owns the key,
    [utils.pickFrom] answers with the value of the last listed property
    that the object owns, whatever that value is, and with [null] if the
    object owns none of the listed properties. *)
Theorem pickFrom_no_owner :
  forall (fs : fields) (key : string) (arr : list string),
    has_field fs key = false ->
    (forall q, In q arr -> hasOwn (get_field fs q) key = false) ->
    (forall (pre post : list string) (p : string),
        arr = (pre ++ p :: post)%list ->
        has_field fs p = true ->
        (forall q, In q post -> has_field fs q = false) ->
        utils.pickFrom (VObj fs) key arr = get_field fs p)
    /\ ((forall q, In q arr -> has_field fs q = false) ->
        utils.pickFrom (VObj fs) key arr = VNull).
Proof.
  intros fs key arr Hk Harr.
  rewrite (pickFrom_unowned_fold fs key arr Hk Harr). split.
  - intros pre post p -> Hp Hpost.
    rewrite fold_left_app. cbn [fold_left]. rewrite Hp.
    now apply fold_unowned.
  - intros Hnone. now apply fold_unowned.
Qed.

(** A record whose only listed property is [options]: [pickLayout]
    answers with the options object; and with [null] where [options]
    holds [null]. *)
Lemma pickFrom_no_owner_witness :
  utils.pickFrom record_a_md "layout" ["data"; "locals"; "options"]
  = VObj [("ext", VStr "hbs")]
  /\ utils.pickFrom (VObj [("options", VNull)]) "layout"
       ["data"; "locals"; "options"]
     = VNull.
Proof.
  split.
  - refine (proj1 (pickFrom_no_owner
             [("path", VStr "a.md"); ("content", VStr "x");
              ("options", VObj [("ext", VStr "hbs")])]
             "layout" ["data"; "locals"; "options"] eq_refl _)
             ["data"; "locals"] [] "options" eq_refl eq_refl _).
    + intros q [<-|[<-|[<-|[]]]]; reflexivity.
    + intros q [].
  - refine (proj1 (pickFrom_no_owner
             [("options", VNull)]
             "layout" ["data"; "locals"; "options"] eq_refl _)
             ["data"; "locals"] [] "options" eq_refl eq_refl _).
    + intros q [<-|[<-|[<-|[]]]]; reflexivity.
    + intros q [].
Defined.

(** X4.  A record that names an [engine] resolves to its own [ext]
    property, set or not: the engine name itself, the record's options,
    the caller's options and the instance are not looked at. *)
Theorem pickExt_engine_returns_ext :
  forall (tfs : fields) (callsite : value) (thisArg : option instance),
    truthy (get_field tfs "engine") = true ->
    utils.pickExt (VObj tfs) callsite thisArg = Ok (get_field tfs "ext").
Proof.
  intros tfs callsite thisArg H. unfold utils.pickExt.
  change (isObject (VObj tfs)) with true. cbv beta zeta iota.
  rewrite !get_copy. cbn [get]. now rewrite H.
Qed.

Lemma pickExt_engine_returns_ext_witness :
  utils.pickExt (VObj [("engine", VStr "hbs"); ("path", VStr "a.md")])
    (VObj [("ext", VStr "jade")]) None
  = Ok VUndef.
Proof.
  apply (pickExt_engine_returns_ext
           [("engine", VStr "hbs"); ("path", VStr "a.md")]).
  reflexivity.
Defined.

(** For a template that is not an object (raw content, say) the
    caller's options play no part: [utils.pickExt] answers the dotted
    [viewEngine] option of the instance, and throws when it was handed
    no instance. *)
Theorem pickExt_outside_record :
  forall (template callsite : value) (this : instance),
    isObject template = false ->
    utils.pickExt template callsite (Some this)
      = Ok (utils.formatExt (option_ this "viewEngine"))
    /\ utils.pickExt template callsite None
       = Throw (TypeError "Cannot read property 'option' of undefined").
Proof.
  intros template callsite this H. unfold utils.pickExt. rewrite H.
  split; [|reflexivity]. f_equal. unfold utils.formatExt.
  destruct (truthy (option_ this "viewEngine")); reflexivity.
Qed.

Lemma pickExt_outside_record_witness :
  utils.pickExt (VStr "raw <%= content %>") (VObj [("ext", VStr "jade")])
    (Some app)
  = Ok (VStr ".*").
Proof.
  exact (proj1 (pickExt_outside_record (VStr "raw <%= content %>")
                  (VObj [("ext", VStr "jade")]) app eq_refl)).
Defined.

(** The loop of [utils.pickCached] while the collections do not own the
    name. *)
Lemma pickCached_loop_skip (this : instance) (name : string)
  (pre rest : list string) :
  (forall t, In t pre ->
             exists c, cache_get this t = VObj c /\ has_field c name = false) ->
  utils.pickCached_loop this (pre ++ rest) name
  = utils.pickCached_loop this rest name.
Proof.
  induction pre as [|t pre IH]; intros H; simpl; auto.
  destruct (H t (or_introl eq_refl)) as (c & Hc & Hn).
  rewrite Hc, Hn. apply IH. intros t' Ht'. apply H. now right.
Qed.

(** X5.  Given an instance that carries [viewType.renderable],
    [utils.pickCached] answers the record of the first renderable type,
    in registration order, whose collection owns the name: a later type
    holding the same name is shadowed. *)
Theorem pickCached_first_type :
  forall (L : Type) (locals : L) (this : instance) (name t : string)
         (types pre post : list string) (c : fields),
    viewType_renderable this = Some types ->
    types = (pre ++ t :: post)%list ->
    (forall t', In t' pre ->
       exists c', cache_get this t' = VObj c' /\ has_field c' name = false) ->
    cache_get this t = VObj c ->
    has_field c name = true ->
    utils.pickCached (VStr name) locals (Some this) = Ok (get_field c name).
Proof.
  intros L locals this name t types pre post c Hv -> Hpre Hc Hn.
  unfold utils.pickCached. rewrite Hv.
  rewrite (pickCached_loop_skip _ _ _ _ Hpre). simpl.
  now rewrite Hc, Hn.
Qed.

(** [utils.pickCached] answers [null], without touching its other
    arguments, for anything that is not a string; and for a string that
    no renderable collection owns. *)
Theorem pickCached_not_found :
  forall (L : Type) (locals : L) (thisArg : option instance) (file : value),
    (isString file = false ->
     utils.pickCached file locals thisArg = Ok VNull)
    /\ (forall (this : instance) (name : string) (types : list string),
           viewType_renderable this = Some types ->
           (forall t, In t types ->
              exists c, cache_get this t = VObj c
                        /\ has_field c name = false) ->
           utils.pickCached (VStr name) locals (Some this) = Ok VNull).
Proof.
  intros L locals thisArg file. split.
  - intros H. destruct file; try reflexivity. discriminate.
  - intros this name types Hv H. unfold utils.pickCached. rewrite Hv.
    rewrite <- (app_nil_r types).
    now rewrite (pickCached_loop_skip _ _ _ _ H).
Qed.

Lemma pickCached_first_type_witness :
  utils.pickCached (VStr "a.md") tt (Some app_viewType)
  = Ok (VObj [("content", VStr "post a")]).
Proof.
  apply (pickCached_first_type unit tt app_viewType "a.md" "posts"
           ["pages"; "posts"; "docs"] ["pages"] ["docs"]
           [("a.md", VObj [("content", VStr "post a")])]);
    try reflexivity.
  intros t' [<-|[]]. eexists. split; reflexivity.
Defined.

Lemma pickCached_not_found_witness :
  utils.pickCached (VObj [("content", VStr "x")]) tt None = Ok VNull
  /\ utils.pickCached (VStr "missing.md") tt (Some app_viewType) = Ok VNull.
Proof.
  split.
  - exact (proj1 (pickCached_not_found unit tt None
                    (VObj [("content", VStr "x")])) eq_refl).
  - apply (proj2 (pickCached_not_found unit tt None VUndef) app_viewType
             "missing.md" ["pages"; "posts"; "docs"] eq_refl).
    intros t [<-|[<-|[<-|[]]]]; eexists; split; reflexivity.
Defined.

(* ------------------------------------------------------------------ *)
(** *** Scans by type *)

Lemma typed_scan_plain (type : string) (arr : list value) (idx : value) :
  truthy idx && isNumber idx = false ->
  forall (fuel : nat) (i : Z),
    (0 <= i <= Z.of_nat (List.length arr))%Z ->
    (Z.of_nat (List.length arr) - i < Z.of_nat fuel)%Z ->
    (exists j : Z,
        typed_scan fuel type arr idx i = Some (Some j)
        /\ (i <= j < Z.of_nat (List.length arr))%Z
        /\ typeOf (index arr j) = type
        /\ forall k, (i <= k < j)%Z -> typeOf (index arr k) <> type)
    \/ (typed_scan fuel type arr idx i = Some None
        /\ forall k, (i <= k < Z.of_nat (List.length arr))%Z ->
                     typeOf (index arr k) <> type).
Proof.
  intros Hidx fuel. induction fuel as [|fuel IH]; intros i Hi Hf.
  - lia.
  - cbn [typed_scan]. rewrite Hidx.
    destruct (i <? Z.of_nat (List.length arr))%Z eqn:Hlt.
    + apply Z.ltb_lt in Hlt.
      destruct (typeOf (index arr i) =? type) eqn:Ht.
      * apply String.eqb_eq in Ht. left. exists i.
        split; [reflexivity|]. split; [lia|]. split; [exact Ht|].
        intros k Hk. lia.
      * apply String.eqb_neq in Ht.
        destruct (IH (i + 1)%Z ltac:(lia) ltac:(lia))
          as [(j & Hs & Hj & Hty & Hmin) | (Hs & Hnone)].
        -- left. exists j.
           split; [exact Hs|]. split; [lia|]. split; [exact Hty|].
           intros k Hk. destruct (Z.eq_dec k i) as [->|Hne]; auto.
           apply Hmin. lia.
        -- right. split; auto. intros k Hk.
           destruct (Z.eq_dec k i) as [->|Hne]; auto. apply Hnone. lia.
    + apply Z.ltb_ge in Hlt. right. split; auto. intros k Hk. lia.
Qed.

(** X6.  Called without a usable [idx], [utils.firstIndexOfType] and
    [utils.firstOfType] end within [arr.length] turns and agree: they
    answer the least index whose element has the type and that very
    element, or both [null] when no element has it. *)
Theorem firstOfType_least :
  forall (fuel : nat) (type : string) (arr : list value) (idx : value),
    truthy idx && isNumber idx = false ->
    List.length arr < fuel ->
    (exists j : Z,
        firstIndexOfType fuel type arr idx = Some (VNum j)
        /\ firstOfType fuel type arr idx = Some (index arr j)
        /\ (0 <= j < Z.of_nat (List.length arr))%Z
        /\ typeOf (index arr j) = type
        /\ forall k, (0 <= k < j)%Z -> typeOf (index arr k) <> type)
    \/ (firstIndexOfType fuel type arr idx = Some VNull
        /\ firstOfType fuel type arr idx = Some VNull
        /\ forall k, (0 <= k < Z.of_nat (List.length arr))%Z ->
                     typeOf (index arr k) <> type).
Proof.
  intros fuel type arr idx Hidx Hf.
  unfold firstIndexOfType, firstOfType.
  destruct (typed_scan_plain type arr idx Hidx fuel 0%Z ltac:(lia) ltac:(lia))
    as [(j & Hs & Hj & Hty & Hmin) | (Hs & Hnone)]; rewrite Hs.
  - left. exists j.
    split; [reflexivity|]. split; [reflexivity|]. split; [lia|].
    split; [exact Hty|]. intros k Hk. apply Hmin. lia.
  - right. split; [reflexivity|]. split; [reflexivity|].
    intros k Hk. apply Hnone. lia.
Qed.

Lemma firstOfType_least_witness :
  (exists j : Z,
      firstIndexOfType 6 "string" mixed_array VUndef = Some (VNum j)
      /\ firstOfType 6 "string" mixed_array VUndef = Some (index mixed_array j)
      /\ (0 <= j < Z.of_nat (List.length mixed_array))%Z
      /\ typeOf (index mixed_array j) = "string"
      /\ forall k, (0 <= k < j)%Z -> typeOf (index mixed_array k) <> "string")
  \/ (firstIndexOfType 6 "string" mixed_array VUndef = Some VNull
      /\ firstOfType 6 "string" mixed_array VUndef = Some VNull
      /\ forall k, (0 <= k < Z.of_nat (List.length mixed_array))%Z ->
                   typeOf (index mixed_array k) <> "string").
Proof.
  apply (firstOfType_least 6 "string" mixed_array VUndef).
  - reflexivity.
  - simpl. lia.
Defined.

Lemma lastOfType_loop_spec (turns : nat) (type : string) (last : value) :
  lastOfType_loop turns type last
  = match turns with
    | O => VNull
    | S _ => if typeOf last =? type then last else VNull
    end.
Proof.
  induction turns as [|turns IH]; simpl; auto.
  destruct (typeOf last =? type) eqn:E; auto.
  rewrite IH. destruct turns; auto; now rewrite E.
Qed.

Lemma index_last (arr : list value) (x : value) :
  index (arr ++ [x]) (Z.of_nat (List.length (arr ++ [x])) - 1) = x.
Proof.
  unfold index. rewrite length_app. simpl.
  replace (Z.of_nat (List.length arr + 1) - 1)%Z
    with (Z.of_nat (List.length arr)) by lia.
  destruct (Z.of_nat (List.length arr) <? 0)%Z eqn:E;
    [apply Z.ltb_lt in E; lia|].
  rewrite Nat2Z.id, app_nth2, Nat.sub_diag by lia. reflexivity.
Qed.

(** X7.  [utils.lastOfType] looks at the final element of the array
    only: it answers that element if it has the type and [null]
    otherwise, even when an earlier element has the type. *)
Theorem lastOfType_final_element_only :
  forall (type : string) (arr : list value) (x : value),
    lastOfType type (arr ++ [x])
    = if typeOf x =? type then x else VNull.
Proof.
  intros type arr x. unfold lastOfType.
  rewrite lastOfType_loop_spec, index_last, length_app. simpl.
  now rewrite Nat.add_1_r.
Qed.

(* ================================================================== *)
(** ** Further properties of index.js *)

Lemma get_not_own (v : value) (k : string) :
  hasOwn v k = false -> get v k = VUndef.
Proof.
  destruct v; simpl; auto. apply get_absent.
Qed.

(** What [extendLocals] returns for a template whose [_locals], if it
    has one, is an object. *)
Lemma extendLocals_result (key : string) (template locals : value) :
  (hasOwn template "_locals" = true ->
   isObject (get template "_locals") = true) ->
  exists ls : fields,
    get_field (extend [("_locals", VObj [])] [template]) "_locals" = VObj ls
    /\ VObj ls = (if hasOwn template "_locals" then get template "_locals"
                  else VObj [])
    /\ extendLocals key template locals
       = Ok (VObj (set_field (extend [("_locals", VObj [])] [template])
                     "_locals"
                     (VObj (set_field ls key
                              (VObj (extend [] [get_field ls key; locals])))))).
Proof.
  intros H. unfold extendLocals.
  assert (E : get_field (extend [("_locals", VObj [])] [template]) "_locals"
              = if hasOwn template "_locals" then get template "_locals"
                else VObj []).
  { unfold extend. cbn [fold_left]. rewrite get_assign. reflexivity. }
  destruct (hasOwn template "_locals") eqn:Own.
  - specialize (H eq_refl).
    destruct (get template "_locals") as [| | | | |ls| |] eqn:G;
      try discriminate.
    exists ls. rewrite E. repeat split.
  - exists []. rewrite E. repeat split.
Qed.

(** X8.  [extendLocals] returns a copy that keeps every top-level
    property of the template, keeps the other buckets of [_locals], and
    in the bucket named by [key] lays the given locals over what the
    bucket held before. *)
Theorem extendLocals_buckets :
  forall (key : string) (template locals : value),
    (hasOwn template "_locals" = true ->
     isObject (get template "_locals") = true) ->
    exists r : fields,
      extendLocals key template locals = Ok (VObj r)
      /\ (forall k, k <> "_locals" -> get_field r k = get template k)
      /\ (forall key', key' <> key ->
            get (get_field r "_locals") key'
            = get (get template "_locals") key')
      /\ (forall j,
            get (get (get_field r "_locals") key) j
            = if hasOwn locals j then get locals j
              else get (get (get template "_locals") key) j).
Proof.
  intros key template locals H.
  destruct (extendLocals_result key template locals H) as (ls & Hg & Hls & Hr).
  assert (Hbucket : forall q, get_field ls q = get (get template "_locals") q).
  { intros q. destruct (hasOwn template "_locals") eqn:Own.
    - now rewrite <- Hls.
    - injection Hls as ->. now rewrite (get_not_own _ _ Own). }
  eexists. split; [exact Hr|]. repeat split.
  - intros k Hk. rewrite get_set_other by congruence.
    unfold extend. cbn [fold_left]. rewrite get_assign.
    destruct (hasOwn template k) eqn:Own; auto.
    rewrite (get_not_own _ _ Own). cbn [get_field].
    destruct ("_locals" =? k) eqn:E; auto.
    apply String.eqb_eq in E. congruence.
  - intros key' Hk. rewrite get_set_same. cbn [get].
    rewrite get_set_other by congruence. apply Hbucket.
  - intros j. rewrite get_set_same. cbn [get]. rewrite get_set_same.
    cbn [get]. unfold extend. cbn [fold_left]. rewrite !get_assign.
    destruct (hasOwn locals j); auto.
    rewrite Hbucket.
    destruct (hasOwn (get (get template "_locals") key) j) eqn:Own; auto.
    now rewrite (get_not_own _ _ Own).
Qed.

Lemma extendLocals_buckets_witness :
  exists r : fields,
    extendLocals "render"
      (VObj [("content", VStr "x");
             ("_locals", VObj [("partial", VObj [("a", VStr "1")]);
                               ("render", VObj [("b", VStr "2")])])])
      (VObj [("c", VStr "3")]) = Ok (VObj r)
    /\ get_field r "content" = VStr "x"
    /\ get (get_field r "_locals") "partial" = VObj [("a", VStr "1")]
    /\ get (get (get_field r "_locals") "render") "b" = VStr "2"
    /\ get (get (get_field r "_locals") "render") "c" = VStr "3".
Proof.
  destruct (extendLocals_buckets "render"
              (VObj [("content", VStr "x");
                     ("_locals", VObj [("partial", VObj [("a", VStr "1")]);
                                       ("render", VObj [("b", VStr "2")])])])
              (VObj [("c", VStr "3")]) (fun _ => eq_refl))
    as (r & Hr & Htop & Hother & Hbucket).
  exists r. split; [exact Hr|]. split.
  - apply (Htop "content"). discriminate.
  - split; [apply (Hother "partial"); discriminate|].
    split; [exact (Hbucket "b") | exact (Hbucket "c")].
Defined.

(** X9.  [lazyLayouts] constructs the layout engine of an extension
    once: a later call for the same extension, with whatever options,
    changes nothing. *)
Theorem lazyLayouts_once :
  forall (this : instance) (ext opts1 opts2 : value),
    lazyLayouts (lazyLayouts this ext opts1) ext opts2
    = lazyLayouts this ext opts1.
Proof.
  intros this ext opts1 opts2. unfold lazyLayouts at 2 3.
  destruct (has_field (layoutSettings this) (to_string ext)) eqn:E.
  - unfold lazyLayouts. now rewrite E.
  - unfold lazyLayouts. cbn [layoutSettings set_layoutSettings].
    now rewrite has_set_same.
Qed.

(** X10.  The settings [lazyLayouts] hands to a new layout engine are
    read from the instance options overlaid with the options of the
    call: [layoutTag] and [layoutDelims] of the call win over those of
    the instance. *)
Theorem lazyLayouts_settings :
  forall (this : instance) (ext opts : value),
    has_field (layoutSettings this) (to_string ext) = false ->
    let L := get_field (layoutSettings (lazyLayouts this ext opts))
               (to_string ext) in
    get L "tag" = (if hasOwn opts "layoutTag" then get opts "layoutTag"
                   else option_ this "layoutTag")
    /\ get L "delims" = (if hasOwn opts "layoutDelims"
                         then get opts "layoutDelims"
                         else option_ this "layoutDelims")
    /\ get L "layouts" = (if hasOwn opts "layouts" then get opts "layouts"
                          else option_ this "layouts")
    /\ get L "locals" = (if hasOwn opts "locals" then get opts "locals"
                         else option_ this "locals").
Proof.
  intros this ext opts H. unfold lazyLayouts. rewrite H.
  cbn [layoutSettings set_layoutSettings]. rewrite get_set_same.
  cbn [get get_field String.eqb Ascii.eqb Bool.eqb].
  unfold extend. cbn [fold_left]. rewrite !get_assign.
  assert (Hi : forall k,
             (if hasOwn (VObj (options this)) k
              then get (VObj (options this)) k else get_field [] k)
             = option_ this k).
  { intros k. cbn [hasOwn get]. unfold option_.
    destruct (has_field (options this) k) eqn:E; auto.
    symmetry. now apply get_absent. }
  rewrite !Hi. repeat split.
Qed.

Lemma lazyLayouts_settings_witness :
  get (get_field (layoutSettings
                    (lazyLayouts bare (VStr ".hbs")
                       (VObj [("layoutTag", VStr "yield")]))) ".hbs") "tag"
  = VStr "yield".
Proof.
  exact (proj1 (lazyLayouts_settings bare (VStr ".hbs")
                  (VObj [("layoutTag", VStr "yield")]) eq_refl)).
Defined.




(** X12.  [applyLayout] writes to the record's [options] only: whether
    it returns or throws, every other property of the record it leaves
    is the one it was given, [content] included.  And whenever it
    returns, it leaves the record as it was given and the string
    returned is the record's own content: no call returns a wrapped
    string. *)
Theorem applyLayout_frame :
  forall (env : collaborators) (this : instance)
         (ext template locals : value),
    (forall k : string,
        k <> "options" ->
        get (fst (applyLayout env this ext template locals)) k
        = get template k)
    /\ (forall out : value,
           snd (applyLayout env this ext template locals) = Ok out ->
           fst (applyLayout env this ext template locals) = template
           /\ out = get (utils.pickContent template) "content").
Proof.
  intros env this ext template locals. unfold applyLayout.
  destruct (truthy (get_field (layoutSettings this) (to_string ext)));
    [|split; [reflexivity | intros out [= <-]; now split]].
  destruct (prop template "options") as [topts|];
    [|split; [reflexivity | discriminate]].
  destruct (prop topts "hasLayout") as [h|];
    [|split; [reflexivity | discriminate]].
  destruct (negb (truthy h));
    [|split; [reflexivity | intros out [= <-]; now split]].
  destruct (set_prop topts "hasLayout" (VBool true)) as [topts'|];
    [|split; [reflexivity | discriminate]].
  split; [|discriminate].
  intros k Hk. cbn [fst].
  destruct template as [| | | | |tfs| |]; try reflexivity.
  cbn [get]. now apply get_set_other.
Qed.

(** On the marked page the call returns: the page is left as it was and
    the bare content is handed back. *)
Lemma applyLayout_frame_witness :
  fst (applyLayout standins app (VStr ".md")
         (marked [("path", VStr "home.md");
                  ("content", VStr "This is home page content.");
                  ("layout", VStr "default.md"); ("options", VObj [])] [])
         (VObj []))
  = marked [("path", VStr "home.md");
            ("content", VStr "This is home page content.");
            ("layout", VStr "default.md"); ("options", VObj [])] []
  /\ VStr "This is home page content."
     = get (utils.pickContent
              (marked [("path", VStr "home.md");
                       ("content", VStr "This is home page content.");
                       ("layout", VStr "default.md"); ("options", VObj [])]
                      []))
           "content".
Proof.
  exact (proj2 (applyLayout_frame standins app (VStr ".md")
                  (marked [("path", VStr "home.md");
                           ("content", VStr "This is home page content.");
                           ("layout", VStr "default.md");
                           ("options", VObj [])] [])
                  (VObj []))
           (VStr "This is home page content.") eq_refl).
Defined.

(** With a layout engine registered for the extension,
    [applyLayout] needs the record to carry [options]: for an object
    record without them it throws a [TypeError]; without a layout
    engine it hands back the record's content and reads no options. *)
Theorem applyLayout_needs_options :
  forall (env : collaborators) (this : instance) (ext locals : value)
         (tfs : fields),
    has_field tfs "options" = false ->
    applyLayout env this ext (VObj tfs) locals
    = (VObj tfs,
       if truthy (get_field (layoutSettings this) (to_string ext))
       then Throw (TypeError "Cannot read property 'hasLayout' of undefined")
       else Ok (get_field tfs "content")).
Proof.
  intros env this ext locals tfs H. unfold applyLayout.
  rewrite pickContent_content.
  destruct (truthy (get_field (layoutSettings this) (to_string ext))); auto.
  cbn [prop get]. now rewrite (get_absent _ _ H).
Qed.

Lemma applyLayout_needs_options_witness :
  applyLayout standins app (VStr ".md") (VObj [("content", VStr "x")])
    (VObj [])
  = (VObj [("content", VStr "x")],
     Throw (TypeError "Cannot read property 'hasLayout' of undefined")).
Proof.
  exact (applyLayout_needs_options standins app (VStr ".md") (VObj [])
           [("content", VStr "x")] eq_refl).
Defined.

(** No entry of a loaded map gets through [normalize]: whatever the
    entry and the collaborators, the body of the loop ends in an
    exception, at the latest at the call of [utils.isLayout]. *)
Lemma normalize_entry_throws (env : collaborators) (opts0 : value)
  (key : string) (acc : fields * instance) :
  exists e : value, normalize_entry env opts0 key acc = Throw e.
Proof.
  destruct acc as [template this]. unfold normalize_entry.
  destruct (prop (get_field template key) "options") as [vo|e];
    cbn [bind]; [|now exists e].
  destruct (set_prop _ _ _) as [v|e]; cbn [bind]; [|now exists e].
  destruct (call_option env this "renameKey" _) as [key'|e];
    cbn [bind]; [|now exists e].
  destruct (utils.pickExt _ _ _) as [ext|e]; cbn [bind]; [|now exists e].
  now eexists.
Qed.

(** With the default [normalize], loading a map that has an entry
    throws. *)
Lemma normalize_nonempty_throws (env : collaborators) (this : instance)
  (key : string) (v : value) (rest : fields) (opts0 : value) :
  truthy (option_ this "normalize") = false ->
  exists e : value,
    normalize env this (VObj ((key, v) :: rest)) opts0 = Throw e.
Proof.
  intros H. unfold normalize. rewrite H. cbn [map fst normalize_loop].
  destruct (normalize_entry_throws env opts0 key ((key, v) :: rest, this))
    as [e ->].
  now exists e.
Qed.

(* ------------------------------------------------------------------ *)
(** *** The merged context *)

Lemma has_default1_walk (src : fields) (l : fields) (fs : fields)
  (k : string) :
  has_field
    (fold_left (fun acc kv =>
                  match get_field acc (fst kv) with
                  | VUndef => set_field acc (fst kv) (get_field src (fst kv))
                  | _ => acc
                  end) l fs) k
  = has_field l k || has_field fs k.
Proof.
  revert fs. induction l as [|[k' v'] rest IH]; intros fs; simpl; auto.
  rewrite IH. destruct (k' =? k) eqn:E; simpl.
  - apply String.eqb_eq in E. subst k'.
    destruct (get_field fs k) eqn:G;
      try (rewrite (get_has fs k) by (rewrite G; discriminate);
           apply orb_true_r).
    rewrite has_set_same. apply orb_true_r.
  - apply String.eqb_neq in E.
    destruct (get_field fs k'); auto. now rewrite has_set_other.
Qed.

Lemma has_default1 (fs : fields) (src : value) (k : string) :
  has_field (default1 fs src) k = hasOwn src k || has_field fs k.
Proof.
  destruct src; simpl; auto. apply has_default1_walk.
Qed.

Lemma has_defaults_three (a b : value) (k : string) :
  has_field (defaults [] [VObj []; a; b]) k = hasOwn a k || hasOwn b k.
Proof.
  unfold defaults. cbn [fold_left]. rewrite !has_default1. simpl.
  rewrite orb_false_r. apply orb_comm.
Qed.

(** The context of the default merge, key by key. *)
Lemma mergeFn_default_context (env : collaborators) (this : instance)
  (template locals : value) (dfs : fields) :
  truthy (option_ this "mergeFn") = false ->
  cache_get this "data" = VObj dfs ->
  exists o : fields,
    mergeFn env this template locals
    = Ok (VObj (extend dfs [VObj o; locals]),
          set_cache this (set_field (cache this) "data"
                            (VObj (extend dfs [VObj o; locals]))))
    /\ (forall k, k <> "helpers" ->
          get_field o k
          = (if isObject template then
               if is_true (option_ this "preferLocals")
               then get_field (defaults [] [VObj []; get template "locals";
                                            get template "data"]) k
               else get_field (defaults [] [VObj []; get template "data";
                                            get template "locals"]) k
             else VUndef)
          /\ has_field o k
             = (if isObject template
                then hasOwn (get template "data") k
                     || hasOwn (get template "locals") k
                else false)).
Proof.
  intros Hc Hd. unfold mergeFn. rewrite Hc, Hd. cbn [extend_value].
  eexists. split; [reflexivity|].
  intros k Hk. rewrite get_set_other, has_set_other by congruence.
  destruct (isObject template); [|split; reflexivity].
  destruct (is_true (option_ this "preferLocals")); split; auto;
    rewrite has_defaults_three; auto using orb_comm.
Qed.

Lemma get_extend_two (dfs : fields) (o locals : value) (k : string) :
  get_field (extend dfs [o; locals]) k
  = if hasOwn locals k then get locals k
    else if hasOwn o k then get o k else get_field dfs k.
Proof.
  unfold extend. cbn [fold_left]. now rewrite !get_assign.
Qed.

(** X13.  The default merge writes into the global data object: the
    context [mergeFn] returns is what the instance holds as its global
    data afterwards, so a key passed as locals to one call is still in
    the context of a later call for another record that does not define
    it. *)
Theorem mergeFn_locals_leak :
  forall (env : collaborators) (this : instance)
         (t1 l1 t2 l2 : value) (k : string),
    truthy (option_ this "mergeFn") = false ->
    isObject (cache_get this "data") = true ->
    hasOwn l1 k = true ->
    k <> "helpers" ->
    hasOwn l2 k = false ->
    hasOwn (get t2 "data") k = false ->
    hasOwn (get t2 "locals") k = false ->
    exists (ctx1 ctx2 : value) (this1 this2 : instance),
      mergeFn env this t1 l1 = Ok (ctx1, this1)
      /\ cache_get this1 "data" = ctx1
      /\ mergeFn env this1 t2 l2 = Ok (ctx2, this2)
      /\ get ctx2 k = get l1 k.
Proof.
  intros env this t1 l1 t2 l2 k Hc Hd Hl1 Hk Hl2 Hd2 Hlo2.
  destruct (cache_get this "data") as [| | | | |dfs| |] eqn:D;
    try discriminate.
  destruct (mergeFn_default_context env this t1 l1 dfs Hc D)
    as (o1 & Hm1 & _).
  set (ctx1 := extend dfs [VObj o1; l1]) in *.
  set (this1 := set_cache this (set_field (cache this) "data" (VObj ctx1)))
    in *.
  assert (D1 : cache_get this1 "data" = VObj ctx1).
  { unfold this1, cache_get. cbn [cache set_cache]. apply get_set_same. }
  assert (Hc1 : truthy (option_ this1 "mergeFn") = false) by exact Hc.
  destruct (mergeFn_default_context env this1 t2 l2 ctx1 Hc1 D1)
    as (o2 & Hm2 & Ho2).
  exists (VObj ctx1), (VObj (extend ctx1 [VObj o2; l2])), this1.
  eexists. split; [exact Hm1|]. split; [exact D1|]. split; [exact Hm2|].
  cbn [get]. rewrite get_extend_two, Hl2. cbn [hasOwn get].
  destruct (Ho2 k Hk) as [_ Hhas]. rewrite Hhas.
  replace (if isObject t2
           then hasOwn (get t2 "data") k || hasOwn (get t2 "locals") k
           else false) with false
    by (rewrite Hd2, Hlo2; now destruct (isObject t2)).
  unfold ctx1. now rewrite get_extend_two, Hl1.
Qed.

Lemma mergeFn_locals_leak_witness :
  exists (ctx1 ctx2 : value) (this1 this2 : instance),
    mergeFn standins app record_front_matter (VObj [("title", VStr "T")])
      = Ok (ctx1, this1)
    /\ cache_get this1 "data" = ctx1
    /\ mergeFn standins this1 home_page (VObj []) = Ok (ctx2, this2)
    /\ get ctx2 "title" = VStr "T".
Proof.
  apply (mergeFn_locals_leak standins app record_front_matter
           (VObj [("title", VStr "T")]) home_page (VObj []) "title");
    try reflexivity.
  discriminate.
Defined.

(** X14.  With the option [preferLocals] set to [true] (and no [mergeFn]
    option), a key that the record's locals define reaches the context
    with the value of the locals, whatever the record's parsed data
    hold, unless the render call passes that key itself. *)
Theorem mergeFn_preferLocals :
  forall (env : collaborators) (this : instance) (template locals : value)
         (k : string) (v : value),
    truthy (option_ this "mergeFn") = false ->
    is_true (option_ this "preferLocals") = true ->
    isObject template = true ->
    isObject (cache_get this "data") = true ->
    get (get template "locals") k = v ->
    v <> VUndef ->
    k <> "helpers" ->
    hasOwn locals k = false ->
    exists (ctx : value) (this' : instance),
      mergeFn env this template locals = Ok (ctx, this')
      /\ get ctx k = v.
Proof.
  intros env this template locals k v Hc Hp Ht Hd Hv Hdef Hk Hl.
  destruct (cache_get this "data") as [| | | | |dfs| |] eqn:D;
    try discriminate.
  destruct (mergeFn_default_context env this template locals dfs Hc D)
    as (o & Hm & Ho).
  eexists. eexists. split; [exact Hm|].
  cbn [get]. rewrite get_extend_two, Hl. cbn [hasOwn get].
  destruct (Ho k Hk) as [Hget _]. rewrite Ht, Hp in Hget.
  rewrite get_defaults_three, Hv in Hget.
  assert (Hov : get_field o k = v) by (rewrite Hget; destruct v; congruence).
  rewrite (get_has o k) by (rewrite Hov; exact Hdef).
  exact Hov.
Qed.

Lemma mergeFn_preferLocals_witness :
  exists (ctx : value) (this' : instance),
    mergeFn standins (with_option app "preferLocals" (VBool true))
      record_front_matter (VObj []) = Ok (ctx, this')
    /\ get ctx "name" = VStr "BBB".
Proof.
  apply (mergeFn_preferLocals standins
           (with_option app "preferLocals" (VBool true))
           record_front_matter (VObj []) "name" (VStr "BBB"));
    try reflexivity; discriminate.
Defined.

Lemma helpers_object_get (this : instance) (n : string) (h : helper) :
  lookup (helpers this) n = Some h ->
  get (helpers_object this) n = VFun n.
Proof.
  unfold helpers_object. cbn [get].
  induction (helpers this) as [|[n' h'] rest IH]; simpl; [discriminate|].
  destruct (n' =? n) eqn:E.
  - apply String.eqb_eq in E. now subst n'.
  - exact IH.
Qed.

Lemma helpers_object_has (this : instance) (n : string) (h : helper) :
  lookup (helpers this) n = Some h ->
  hasOwn (helpers_object this) n = true.
Proof.
  unfold helpers_object. cbn [hasOwn].
  induction (helpers this) as [|[n' h'] rest IH]; simpl; [discriminate|].
  destruct (n' =? n); auto.
Qed.

(** X15.  Every registered helper is put into the context under
    [helpers], by its name, when neither the record nor the render call
    brings a [helpers] of its own. *)
Theorem mergeFn_helpers_in_context :
  forall (env : collaborators) (this : instance) (template locals : value)
         (n : string) (h : helper),
    truthy (option_ this "mergeFn") = false ->
    isObject (cache_get this "data") = true ->
    lookup (helpers this) n = Some h ->
    get (get template "data") "helpers" = VUndef ->
    get (get template "locals") "helpers" = VUndef ->
    hasOwn locals "helpers" = false ->
    exists (ctx : value) (this' : instance),
      mergeFn env this template locals = Ok (ctx, this')
      /\ get (get ctx "helpers") n = VFun n.
Proof.
  intros env this template locals n h Hc Hd Hn Hdh Hlh Hl.
  unfold mergeFn. rewrite Hc.
  destruct (cache_get this "data") as [| | | | |dfs| |] eqn:D;
    try discriminate.
  eexists. eexists. split; [reflexivity|].
  cbn [extend_value get]. rewrite get_extend_two, Hl. cbn [hasOwn get].
  rewrite has_set_same, get_set_same. cbn [get].
  assert (Ho : get_field
                 (if isObject template
                  then if is_true (option_ this "preferLocals")
                       then defaults [] [VObj []; get template "locals";
                                         get template "data"]
                       else defaults [] [VObj []; get template "data";
                                         get template "locals"]
                  else []) "helpers" = VUndef).
  { destruct (isObject template); auto.
    destruct (is_true (option_ this "preferLocals"));
      rewrite get_defaults_three; rewrite ?Hdh, ?Hlh; auto. }
  rewrite Ho. unfold extend. cbn [fold_left]. rewrite !get_assign.
  rewrite (helpers_object_has _ _ _ Hn), (helpers_object_get _ _ _ Hn).
  reflexivity.
Qed.

Lemma mergeFn_helpers_in_context_witness :
  exists (ctx : value) (this' : instance),
    mergeFn standins docs_async home_page (VObj []) = Ok (ctx, this')
    /\ get (get ctx "helpers") "doc" = VFun "doc".
Proof.
  apply (mergeFn_helpers_in_context standins docs_async home_page (VObj [])
           "doc" (IncludeSync "docs")); reflexivity.
Defined.

(* ------------------------------------------------------------------ *)
(** *** Template types *)

(** X16.  [trackType] files every type under at least one role (a type
    that is neither renderable nor a layout is a partial) and only ever
    appends: what was tracked before stays tracked. *)
Theorem trackType_assigns_role :
  forall (this : instance) (plural : string) (opts : value),
    (In plural (templateType_partial (trackType this plural opts))
     \/ In plural (templateType_renderable (trackType this plural opts))
     \/ In plural (templateType_layout (trackType this plural opts)))
    /\ incl (templateType_partial this)
            (templateType_partial (trackType this plural opts))
    /\ incl (templateType_renderable this)
            (templateType_renderable (trackType this plural opts))
    /\ incl (templateType_layout this)
            (templateType_layout (trackType this plural opts)).
Proof.
  intros this plural opts. unfold trackType.
  cbn [templateType_partial templateType_renderable templateType_layout
       set_templateType].
  split; [|repeat split; apply incl_appl, incl_refl].
  destruct (truthy (get_field (extend [] [opts]) "isRenderable")).
  - right. left. apply in_or_app. right. now left.
  - destruct (truthy (get_field (extend [] [opts]) "isLayout")).
    + right. right. apply in_or_app. right. now left.
    + left. apply in_or_app. right. rewrite orb_true_r. now left.
Qed.

Lemma lookup_store_other {A} (l : list (string * A)) (k k' : string) (a : A) :
  k <> k' -> lookup (store l k a) k' = lookup l k'.
Proof.
  intros Hne. apply String.eqb_neq in Hne.
  induction l as [|[k0 a0] rest IH]; simpl.
  - now rewrite Hne.
  - destruct (k0 =? k) eqn:E; simpl.
    + apply String.eqb_eq in E. subst k0. now rewrite Hne.
    + destruct (k0 =? k'); auto.
Qed.

(** What a successful [create] leaves behind. *)
Lemma create_result (this this' : instance) (type pl : string) (opts : value) :
  create this type (VStr pl) opts = Ok this' ->
  exists (c : ascii) (rest : string),
    type = String c rest
    /\ options this' = options this
    /\ cache this'
       = set_field (cache this) pl (or_else (cache_get this pl) (VObj []))
    /\ templateType_partial this'
       = templateType_partial (trackType this pl opts)
    /\ templateType_renderable this'
       = templateType_renderable (trackType this pl opts)
    /\ templateType_layout this'
       = templateType_layout (trackType this pl opts)
    /\ methods this'
       = store (store (store (methods this) type (Adder pl))
                      pl (BulkAdder pl opts))
               ("get" ++ String (upper c) rest) (Getter pl)
    /\ helpers this'
       = match lookup (helpers this) type with
         | Some _ => helpers this
         | None => store (helpers this) type (IncludeSync pl)
         end.
Proof.
  unfold create. destruct type as [|c rest]; [discriminate|].
  intros H. injection H as H. subst this'. exists c, rest.
  cbn [helpers set_methods set_cache trackType set_templateType].
  destruct (lookup (helpers this) (String c rest)); repeat split.
Qed.

(** X17.  Registering a type again never clears it: [create] keeps a
    collection that is already there, leaves every other collection and
    the options alone, and does not replace a helper already registered
    under the singular name. *)
Theorem create_preserves :
  forall (this this' : instance) (type pl : string) (opts : value),
    create this type (VStr pl) opts = Ok this' ->
    (truthy (cache_get this pl) = true ->
     cache_get this' pl = cache_get this pl)
    /\ (forall k, k <> pl -> cache_get this' k = cache_get this k)
    /\ (forall h, lookup (helpers this) type = Some h ->
                  helpers this' = helpers this)
    /\ options this' = options this.
Proof.
  intros this this' type pl opts H.
  destruct (create_result _ _ _ _ _ H)
    as (c & rest & _ & Ho & Hc & _ & _ & _ & _ & Hh).
  unfold cache_get. rewrite Hc. repeat split; auto.
  - intros Ht. rewrite get_set_same. unfold or_else.
    unfold cache_get in Ht |- *. now rewrite Ht.
  - intros k Hk. apply get_set_other. congruence.
  - intros h Hl. now rewrite Hl in Hh.
Qed.

Lemma create_preserves_witness :
  exists this' : instance,
    create app_viewType "post" (VStr "posts") VUndef = Ok this'
    /\ cache_get this' "posts"
       = VObj [("a.md", VObj [("content", VStr "post a")])]
    /\ cache_get this' "pages" = cache_get app_viewType "pages".
Proof.
  eexists. split; [reflexivity|].
  destruct (create_preserves app_viewType _ "post" "posts" VUndef eq_refl)
    as (Hkeep & Hother & _).
  split; [exact (Hkeep eq_refl) | apply Hother; discriminate].
Defined.

Lemma get_collect (f : string -> value) (arr : list string) (init : fields)
  (k : string) :
  get_field (fold_left (fun acc key => set_field acc key (f key)) arr init) k
  = if existsb (String.eqb k) arr then f k else get_field init k.
Proof.
  revert init. induction arr as [|a arr IH]; intros init; simpl; auto.
  rewrite IH. destruct (k =? a) eqn:E; simpl.
  - apply String.eqb_eq in E. subst a.
    destruct (existsb (String.eqb k) arr); auto using get_set_same.
  - apply String.eqb_neq in E.
    destruct (existsb (String.eqb k) arr); auto.
    apply get_set_other. congruence.
Qed.

Lemma existsb_last (k : string) (arr : list string) :
  existsb (String.eqb k) (arr ++ [k]) = true.
Proof.
  rewrite existsb_app. simpl. rewrite String.eqb_refl.
  now rewrite orb_true_r.
Qed.

(** X18.  A type is found again by its role: after [create], [getType]
    of the role the options name (of [partial] when they name neither
    renderable nor layout) lists the plural name with the collection of
    the type. *)
Theorem create_then_getType :
  forall (this this' : instance) (type pl : string) (opts : value),
    create this type (VStr pl) opts = Ok this' ->
    exists role : string,
      role = (if truthy (get opts "isRenderable") then "renderable"
              else if truthy (get opts "isLayout") then "layout"
              else "partial")
      /\ exists coll : fields,
           getType this' role = Ok coll
           /\ get_field coll pl = cache_get this' pl.
Proof.
  intros this this' type pl opts H.
  destruct (create_result _ _ _ _ _ H)
    as (c & rest & _ & _ & _ & Hp & Hr & Hl & _ & _).
  unfold getType. rewrite Hp, Hr, Hl. unfold trackType.
  cbn [templateType_partial templateType_renderable templateType_layout
       set_templateType].
  rewrite !get_copy.
  destruct (truthy (get opts "isRenderable")) eqn:R.
  - eexists. split; [reflexivity|]. cbn [String.eqb Ascii.eqb Bool.eqb].
    eexists. split; [reflexivity|]. now rewrite get_collect, existsb_last.
  - destruct (truthy (get opts "isLayout")) eqn:Ly.
    + eexists. split; [reflexivity|]. cbn [String.eqb Ascii.eqb Bool.eqb].
      eexists. split; [reflexivity|]. now rewrite get_collect, existsb_last.
    + eexists. split; [reflexivity|]. cbn [String.eqb Ascii.eqb Bool.eqb].
      eexists. split; [reflexivity|].
      rewrite orb_true_r. now rewrite get_collect, existsb_last.
Qed.

Lemma create_then_getType_witness :
  exists (this' : instance) (coll : fields),
    create app_viewType "post" (VStr "posts")
      (VObj [("isRenderable", VBool true)]) = Ok this'
    /\ getType this' "renderable" = Ok coll
    /\ get_field coll "posts"
       = VObj [("a.md", VObj [("content", VStr "post a")])].
Proof.
  destruct (create_then_getType app_viewType _ "post" "posts"
              (VObj [("isRenderable", VBool true)]) eq_refl)
    as (role & Hrole & coll & Hg & Hc).
  subst role. eexists. exists coll. split; [reflexivity|].
  split; [exact Hg | exact Hc].
Defined.

(** [getType] knows the three roles only: any other name makes it
    throw a [TypeError] instead of answering an empty map. *)
Theorem getType_unknown_role :
  forall (this : instance) (type : string),
    type <> "partial" -> type <> "renderable" -> type <> "layout" ->
    getType this type
    = Throw (TypeError "Cannot read property 'reduce' of undefined").
Proof.
  intros this type Hp Hr Hl. unfold getType.
  apply String.eqb_neq in Hp, Hr, Hl. now rewrite Hp, Hr, Hl.
Qed.

Lemma getType_unknown_role_witness :
  getType app "page"
  = Throw (TypeError "Cannot read property 'reduce' of undefined").
Proof.
  apply getType_unknown_role; discriminate.
Defined.

Lemma upper_upper (c : ascii) : upper (upper c) = upper c.
Proof.
  unfold upper.
  destruct ((97 <=? nat_of_ascii c)%nat && (nat_of_ascii c <=? 122)%nat)
    eqn:E.
  - apply andb_true_iff in E. destruct E as [E1 E2].
    apply Nat.leb_le in E1, E2.
    rewrite nat_ascii_embedding by lia.
    replace ((97 <=? nat_of_ascii c - 32)%nat) with false; auto.
    symmetry. apply Nat.leb_gt. lia.
  - now rewrite E.
Qed.

(** X19.  The getter [create] installs is named after the singular name
    with its first letter in upper case, and an accessor installed under
    a name replaces what was there: two types whose singular names
    differ only in the case of the first letter share one getter, which
    reads the collection of the type created last. *)
Theorem create_getter_collision :
  forall (this this1 this2 : instance) (c : ascii) (rest pl1 pl2 : string)
         (opts1 opts2 : value),
    create this (String c rest) (VStr pl1) opts1 = Ok this1 ->
    create this1 (String (upper c) rest) (VStr pl2) opts2 = Ok this2 ->
    lookup (methods this1) ("get" ++ String (upper c) rest)
      = Some (Getter pl1)
    /\ lookup (methods this2) ("get" ++ String (upper c) rest)
       = Some (Getter pl2).
Proof.
  intros this this1 this2 c rest pl1 pl2 opts1 opts2 H1 H2.
  destruct (create_result _ _ _ _ _ H1)
    as (c1 & r1 & E1 & _ & _ & _ & _ & _ & M1 & _).
  destruct (create_result _ _ _ _ _ H2)
    as (c2 & r2 & E2 & _ & _ & _ & _ & _ & M2 & _).
  injection E1 as <- <-. injection E2 as <- <-.
  rewrite M1, M2, upper_upper. split; apply lookup_store_same.
Qed.

Lemma create_getter_collision_witness :
  lookup (methods page_app) "getPage" = Some (Getter "pages")
  /\ lookup (methods landing_app) "getPage" = Some (Getter "landings").
Proof.
  exact (create_getter_collision bare page_app landing_app "p"%char "age"
           "pages" "landings" VUndef VUndef eq_refl eq_refl).
Defined.

(** X20.  [defaultTemplates] never throws: on any instance it registers
    [pages] as renderable, [layouts] as layout and [partials] as
    partial, each appended to what was tracked. *)
Theorem defaultTemplates_roles :
  forall this : instance,
    exists this' : instance,
      defaultTemplates this = Ok this'
      /\ templateType_renderable this'
         = (templateType_renderable this ++ ["pages"])%list
      /\ templateType_layout this'
         = (templateType_layout this ++ ["layouts"])%list
      /\ templateType_partial this'
         = (templateType_partial this ++ ["partials"])%list.
Proof.
  intros this. unfold defaultTemplates. unfold create at 1. cbn [bind].
  unfold create at 1. cbn [bind]. unfold create at 1.
  eexists. split; [reflexivity|].
  repeat match goal with
         | |- context [match ?x with Some _ => _ | None => _ end] =>
             destruct x
         end;
    cbn; rewrite ?app_nil_r; repeat split; reflexivity.
Qed.

(* ------------------------------------------------------------------ *)
(** *** Rendering *)

(** X21.  [render] forwards the result the engine passes to its
    callback and drops the error passed with it: what the caller's
    callback receives is what the helper resolution makes of the result,
    whatever the engine reported as error. *)
Theorem render_drops_engine_callback_error :
  forall (env : collaborators) (this this' : instance)
         (content locals err res : value) (pre : preprocessed)
         (f : value -> value -> engine_reply),
    prepare env this content (callsite_locals locals) = Ok (pre, this') ->
    e_render (pre_engine pre) = Some f ->
    f (pre_content pre) (pre_locals pre) = Replies err res ->
    render env this content locals
    = Callback (fst (Helpers_resolve env res)) (snd (Helpers_resolve env res)).
Proof.
  intros env this this' content locals err res pre f Hp Hf Hr.
  unfold render. rewrite Hp, Hf, Hr.
  now destruct (Helpers_resolve env res).
Qed.

Lemma render_drops_engine_callback_error_witness :
  render standins app_erring (VStr "x") (VObj [])
  = Callback VNull (VStr "x").
Proof.
  exact (render_drops_engine_callback_error standins app_erring
           (set_engine_heap app_erring
              (update (engine_heap app_erring) 0 erring_engine))
           (VStr "x") (VObj []) (Error "syntax error") (VStr "x")
           (mkPre (VStr "x") erring_engine (VObj []))
           (fun content _ => Replies (Error "syntax error") content)
           eq_refl eq_refl eq_refl).
Defined.

(** X22.  Under the default options [cache] and [preprocess], a string
    handed to [render] or to [renderSync] never gets rendered: both
    calls end in an exception thrown at the caller, whether or not a
    template of that name is cached. *)
Theorem string_content_throws :
  forall (env : collaborators) (this : instance) (name : string)
         (locals : value),
    truthy (option_ this "cache") = true ->
    truthy (option_ this "preprocess") = true ->
    (exists e : value, render env this (VStr name) locals = Thrown e)
    /\ (exists e : value, renderSync env this (VStr name) locals = Throw e).
Proof.
  intros env this name locals Hc Hp. split.
  - now apply render_string_content_throws.
  - unfold renderSync, prepare.
    destruct (getEngine env this (option_ this "viewEngine"))
      as [[e this']|err] eqn:G; cbn [bind]; [|eauto].
    pose proof (getEngine_options _ _ _ _ _ G) as Ho.
    assert (Hc' : truthy (option_ this' "cache") = true)
      by (unfold option_; now rewrite Ho).
    assert (Hp' : truthy (option_ this' "preprocess") = true)
      by (unfold option_; now rewrite Ho).
    rewrite Hp', (preprocess_string_throws env this' name _ Hc').
    cbn [bind]. eauto.
Qed.

Lemma string_content_throws_witness :
  (exists e : value, render standins app (VStr "home.md") (VObj []) = Thrown e)
  /\ (exists e : value,
         renderSync standins app (VStr "home.md") (VObj []) = Throw e).
Proof.
  apply (string_content_throws standins app "home.md" (VObj []));
    reflexivity.
Defined.

Lemma include_async_unknown_key_witness :
  include_async standins docs_async "doc" "docs" (VStr "missing.md") (VObj [])
  = (["helper {{" ++ "doc" ++ " " ++ dq ++ "missing.md" ++ dq
      ++ "}} not found."],
     Callback VNull (VStr "")).
Proof.
  exact (include_async_unknown_key standins docs_async "doc" "docs"
           (VStr "missing.md") (VObj []) [] eq_refl eq_refl).
Defined.

(* ------------------------------------------------------------------ *)
(** *** Parser stacks *)

Lemma dotted_dotted (s : string) :
  dotted (VStr (dotted (VStr s))) = dotted (VStr s).
Proof.
  unfold dotted. cbn [to_string].
  destruct (utils.is_dot (utils.char0 (VStr s))) eqn:E.
  - now rewrite E.
  - reflexivity.
Qed.

(** Parser stacks are keyed by the dotted extension: asking
    [getParsers] for an extension with or without its leading dot gives
    the same stack. *)
Theorem getParsers_dot_insensitive :
  forall (parsers : parser_stacks) (s : string) (sync : value),
    getParsers parsers (VStr (dotted (VStr s))) sync
    = getParsers parsers (VStr s) sync.
Proof.
  intros parsers s sync. unfold getParsers. now rewrite dotted_dotted.
Qed.

Lemma map_result_app {A B} (f : A -> result B) (l1 l2 : list A) :
  map_result f (l1 ++ l2)
  = bind (map_result f l1)
         (fun bs1 => bind (map_result f l2)
                          (fun bs2 => Ok (bs1 ++ bs2)%list)).
Proof.
  induction l1 as [|a l1 IH]; simpl.
  - destruct (map_result f l2); reflexivity.
  - destruct (f a); simpl; auto. rewrite IH.
    destruct (map_result f l1); simpl; auto.
    destruct (map_result f l2); reflexivity.
Qed.

(** The stack [getParsers] reads after one more parser object was
    pushed under the same extension. *)
Lemma getParsers_after_push (parsers : parser_stacks) (s : string)
  (pfs : fields) (sync : value) (before : list value) :
  getParsers parsers (VStr s) sync = Ok before ->
  getParsers
    (store parsers (dotted (VStr s))
       ((match lookup parsers (dotted (VStr s)) with
         | Some st => st
         | None => []
         end) ++ [VObj pfs])%list)
    (VStr s) sync
  = Ok (before
        ++ (if truthy (get_field pfs (if truthy sync then "parseSync"
                                      else "parse"))
            then [get_field pfs (if truthy sync then "parseSync"
                                 else "parse")]
            else []))%list.
Proof.
  unfold getParsers. rewrite lookup_store_same.
  destruct (lookup parsers (dotted (VStr s))) as [st|].
  - rewrite map_result_app.
    destruct (map_result _ st) as [picked|]; cbn [bind]; [|discriminate].
    intros H. injection H as <-. cbn [map_result prop get bind].
    now rewrite filter_app.
  - intros H. injection H as <-. reflexivity.
Qed.

(** X23.  A function registered with [parserSync] is appended to the
    synchronous stack of its extension and does not show in the
    asynchronous one; registered with [parser] it is the other way
    round.  Earlier parsers keep their places. *)
Theorem parser_registration :
  forall (parsers : parser_stacks) (s f : string)
         (sync_before async_before : list value),
    s <> "" ->
    getParsers parsers (VStr s) (VBool true) = Ok sync_before ->
    getParsers parsers (VStr s) (VBool false) = Ok async_before ->
    (exists p1 : parser_stacks,
        parserSync parsers [VStr s] (VFun f) = Ok p1
        /\ getParsers p1 (VStr s) (VBool true)
           = Ok (sync_before ++ [VFun f])%list
        /\ getParsers p1 (VStr s) (VBool false) = Ok async_before)
    /\ (exists p2 : parser_stacks,
           parser parsers [VStr s] (VFun f) = Ok p2
           /\ getParsers p2 (VStr s) (VBool false)
              = Ok (async_before ++ [VFun f])%list
           /\ getParsers p2 (VStr s) (VBool true) = Ok sync_before).
Proof.
  intros parsers s f sync_before async_before Hs Hsync Hasync.
  assert (Ht : truthy (VStr s) = true).
  { cbn [truthy]. apply String.eqb_neq in Hs. now rewrite Hs. }
  unfold parserSync, parser. cbn [filter]. rewrite Ht.
  cbn [registerEach]. unfold registerParser.
  cbn [nth List.last is_true truthy isObject typeOf String.eqb andb bind].
  split; eexists; (split; [reflexivity|]); split.
  - rewrite (getParsers_after_push _ _ _ _ _ Hsync). reflexivity.
  - rewrite (getParsers_after_push _ _ _ _ _ Hasync).
    cbn. now rewrite app_nil_r.
  - rewrite (getParsers_after_push _ _ _ _ _ Hasync). reflexivity.
  - rewrite (getParsers_after_push _ _ _ _ _ Hsync).
    cbn. now rewrite app_nil_r.
Qed.

Lemma parser_registration_witness :
  (exists p1 : parser_stacks,
      parserSync md_parsers [VStr "md"] (VFun "yaml") = Ok p1
      /\ getParsers p1 (VStr "md") (VBool true)
         = Ok [VFun "parseSync"; VFun "yaml"]
      /\ getParsers p1 (VStr "md") (VBool false) = Ok [VFun "parse"])
  /\ (exists p2 : parser_stacks,
         parser md_parsers [VStr "md"] (VFun "yaml") = Ok p2
         /\ getParsers p2 (VStr "md") (VBool false)
            = Ok [VFun "parse"; VFun "yaml"]
         /\ getParsers p2 (VStr "md") (VBool true) = Ok [VFun "parseSync"]).
Proof.
  apply (parser_registration md_parsers "md" "yaml"
           [VFun "parseSync"] [VFun "parse"]); try reflexivity.
  discriminate.
Defined.

(** X24.  Registering a parser under one extension leaves the stacks of
    every other extension as they were. *)
Theorem registerParser_frame :
  forall (parsers parsers' : parser_stacks) (s : string) (rest : list value)
         (ext' sync : value),
    registerParser parsers (VStr s :: rest) = Ok parsers' ->
    dotted ext' <> dotted (VStr s) ->
    getParsers parsers' ext' sync = getParsers parsers ext' sync.
Proof.
  intros parsers parsers' s rest ext' sync H Hne.
  unfold registerParser in H. cbn [nth] in H.
  match type of H with
  | bind ?c _ = _ => destruct c as [p|]; cbn [bind] in H; [|discriminate]
  end.
  injection H as <-. unfold getParsers.
  destruct ext'; try reflexivity;
    now rewrite lookup_store_other by congruence.
Qed.

Lemma registerParser_frame_witness :
  getParsers (store md_parsers ".hbs" [front_matter]) (VStr "md") (VBool true)
  = getParsers md_parsers (VStr "md") (VBool true).
Proof.
  apply (registerParser_frame md_parsers
           (store md_parsers ".hbs" [front_matter]) "hbs" [front_matter]
           (VStr "md") (VBool true) eq_refl).
  discriminate.
Defined.

(** X25.  Without an extension as first argument, [registerParser] takes
    the first argument as the parser and pushes it on the universal
    stack [".*"]; a trailing [true] makes it a synchronous parser. *)
Theorem registerParser_without_extension :
  forall (parsers : parser_stacks) (f : string)
         (sync_before async_before : list value),
    getParsers parsers (VStr "*") (VBool true) = Ok sync_before ->
    getParsers parsers (VStr "*") (VBool false) = Ok async_before ->
    (exists p1 : parser_stacks,
        registerParser parsers [VFun f] = Ok p1
        /\ getParsers p1 (VStr "*") (VBool false)
           = Ok (async_before ++ [VFun f])%list
        /\ getParsers p1 (VStr "*") (VBool true) = Ok sync_before)
    /\ (exists p2 : parser_stacks,
           registerParser parsers [VFun f; VBool true] = Ok p2
           /\ getParsers p2 (VStr "*") (VBool true)
              = Ok (sync_before ++ [VFun f])%list
           /\ getParsers p2 (VStr "*") (VBool false) = Ok async_before).
Proof.
  intros parsers f sync_before async_before Hsync Hasync.
  unfold registerParser.
  cbn [nth List.last is_true truthy isObject typeOf String.eqb andb bind].
  split; eexists; (split; [reflexivity|]); split.
  - rewrite (getParsers_after_push _ _ _ _ _ Hasync). reflexivity.
  - rewrite (getParsers_after_push _ _ _ _ _ Hsync).
    cbn. now rewrite app_nil_r.
  - rewrite (getParsers_after_push _ _ _ _ _ Hsync). reflexivity.
  - rewrite (getParsers_after_push _ _ _ _ _ Hasync).
    cbn. now rewrite app_nil_r.
Qed.

Lemma registerParser_without_extension_witness :
  (exists p1 : parser_stacks,
      registerParser md_parsers [VFun "trim"] = Ok p1
      /\ getParsers p1 (VStr "*") (VBool false)
         = Ok [VFun "noop"; VFun "trim"]
      /\ getParsers p1 (VStr "*") (VBool true) = Ok [])
  /\ (exists p2 : parser_stacks,
         registerParser md_parsers [VFun "trim"; VBool true] = Ok p2
         /\ getParsers p2 (VStr "*") (VBool true) = Ok [VFun "trim"]
         /\ getParsers p2 (VStr "*") (VBool false) = Ok [VFun "noop"]).
Proof.
  apply (registerParser_without_extension md_parsers "trim" [] [VFun "noop"]);
    reflexivity.
Defined.

(** X26.  A parser registered as an object is stored as it is and shows
    in each stack for which it has the method: with both [parse] and
    [parseSync] it is appended to both stacks of its extension. *)
Theorem registerParser_object :
  forall (parsers : parser_stacks) (s : string) (pfs : fields)
         (sync : value) (before : list value),
    getParsers parsers (VStr s) sync = Ok before ->
    exists parsers' : parser_stacks,
      registerParser parsers [VStr s; VObj pfs] = Ok parsers'
      /\ getParsers parsers' (VStr s) sync
         = Ok (before
               ++ (if truthy (get_field pfs (if truthy sync then "parseSync"
                                             else "parse"))
                   then [get_field pfs (if truthy sync then "parseSync"
                                        else "parse")]
                   else []))%list.
Proof.
  intros parsers s pfs sync before H.
  unfold registerParser.
  cbn [nth List.last is_true truthy isObject typeOf String.eqb andb bind].
  eexists. split; [reflexivity|].
  now rewrite (getParsers_after_push _ _ _ _ _ H).
Qed.

Lemma registerParser_object_witness :
  exists parsers' : parser_stacks,
    registerParser md_parsers [VStr "hbs"; front_matter] = Ok parsers'
    /\ getParsers parsers' (VStr "hbs") (VBool true) = Ok [VFun "parseSync"].
Proof.
  exact (registerParser_object md_parsers "hbs"
           [("parse", VFun "parse"); ("parseSync", VFun "parseSync")]
           (VBool true) [] eq_refl).
Defined.

(* ------------------------------------------------------------------ *)
(** *** Delimiters *)

(** X27.  Delimiters stored by [addDelims] are what [getDelims] answers
    for that extension, with every setting of the call laid over the
    generated ones; the delimiters of other registered extensions are
    not touched. *)
Theorem addDelims_then_getDelims :
  forall (env : collaborators) (this : instance) (ext arr settings : value),
    getDelims (addDelims env this ext arr settings) (to_string ext)
      = VObj (extend [] [makeDelims env arr settings; settings])
    /\ (forall k : string,
           hasOwn settings k = true ->
           get (getDelims (addDelims env this ext arr settings)
                  (to_string ext)) k
           = get settings k)
    /\ (forall e : string,
           e <> to_string ext ->
           has_field (delims this) e = true ->
           getDelims (addDelims env this ext arr settings) e
           = getDelims this e).
Proof.
  intros env this ext arr settings.
  assert (H : getDelims (addDelims env this ext arr settings) (to_string ext)
              = VObj (extend [] [makeDelims env arr settings; settings])).
  { unfold getDelims, addDelims. cbn [delims set_delims].
    now rewrite has_set_same, get_set_same. }
  split; [exact H|]. split.
  - intros k Hk. rewrite H. cbn [get]. unfold extend. cbn [fold_left].
    now rewrite get_assign, Hk.
  - intros e He Hhas. unfold getDelims, addDelims. cbn [delims set_delims].
    rewrite has_set_other, get_set_other by congruence. now rewrite Hhas.
Qed.

Lemma addDelims_then_getDelims_witness :
  get (getDelims (addDelims standins app (VStr ".hbs") VNull
                    (VObj [("interpolate", VStr "{{x}}")])) ".hbs")
      "interpolate"
  = VStr "{{x}}".
Proof.
  exact (proj1 (proj2 (addDelims_then_getDelims standins app (VStr ".hbs")
                         VNull (VObj [("interpolate", VStr "{{x}}")])))
               "interpolate" eq_refl).
Defined.

(** X28.  For an extension without delimiters of its own, [getDelims]
    answers the delimiters named by the last [useDelims], and those
    stored under the name ["default"] when [useDelims] was not called
    (or called with a falsy name). *)
Theorem getDelims_fallback :
  forall (this : instance) (name : value) (e : string),
    has_field (delims this) e = false ->
    fst (useDelims this name) = name
    /\ getDelims (snd (useDelims this name)) e
       = get_field (delims this)
           (if truthy name then to_string name else "default").
Proof.
  intros this name e H. split; [reflexivity|].
  unfold getDelims, useDelims. cbn [snd delims currentDelims].
  rewrite H. unfold or_else. now destruct (truthy name).
Qed.

Lemma getDelims_fallback_witness :
  getDelims
    (snd (useDelims
            (addDelims standins app (VStr "curly") VNull
               (VObj [("interpolate", VStr "{{x}}")]))
            (VStr "curly"))) ".md"
  = VObj (extend [] [makeDelims standins VNull
                       (VObj [("interpolate", VStr "{{x}}")]);
                     VObj [("interpolate", VStr "{{x}}")]]).
Proof.
  exact (proj2 (getDelims_fallback
                  (addDelims standins app (VStr "curly") VNull
                     (VObj [("interpolate", VStr "{{x}}")]))
                  (VStr "curly") ".md" eq_refl)).
Defined.
